(** * CardTrick: the Fitch-Cheney five-card trick

    A shallow embedding of the encoder [getFitchCheneyArrangement]
    (src/src/App.tsx and its copy in src/verify_logic.ts) and of the decoder
    [decode] (src/verify_logic.ts), with the properties of the natural-language
    specification stated and settled over them.

    Modelling conventions.
    - A JavaScript number holding a card value or an offset is a [Z]; the
      operator [%] is the truncating remainder [Z.rem].
    - A string is a [string]; [===] on strings is [String.eqb].
    - A value of type [Card] that may be [undefined] at run time (an array
      destructured past its end) is an [option Card], [None] being
      [undefined].
    - A function that may throw returns a [result]; reading a property of
      [undefined] throws [TypeError]. *)

From Stdlib Require Import ZArith List String Bool Lia Permutation Sorted.
From Stdlib Require Import DecimalString.
Import ListNotations.
Open Scope Z_scope.

(** ** Types shared by the two source files *)

Inductive Suit : Type := clubs | diamonds | hearts | spades.

Record Card : Type := mkCard {
  id : string;
  suit : Suit;
  value : Z;
  displayValue : string
}.

Definition Suit_eqb (a b : Suit) : bool :=
  match a, b with
  | clubs, clubs | diamonds, diamonds | hearts, hearts | spades, spades => true
  | _, _ => false
  end.

(** The string a suit is at run time (the type [Suit] is a union of string
    literals). *)
Definition Suit_name (s : Suit) : string :=
  match s with
  | clubs => "clubs"
  | diamonds => "diamonds"
  | hearts => "hearts"
  | spades => "spades"
  end.

(** ** Exceptions *)

Inductive exn : Type :=
| Error (msg : string)
| TypeError.

Inductive result (A : Type) : Type :=
| Ok (a : A)
| Throw (e : exn).

Arguments Ok {A} a.
Arguments Throw {A} e.

Definition bind {A B : Type} (m : result A) (k : A -> result B) : result B :=
  match m with
  | Ok a => k a
  | Throw e => Throw e
  end.

Notation "x <- m ;; k" := (bind m (fun x => k))
  (at level 61, m at next level, right associativity).

(** ** JavaScript arrays *)

Module JS.

Section Arrays.
Context {A : Type}.

(** [Array.prototype.sort] with a comparator is stable: an element goes in
    front of the first element it does not compare greater than. *)
Fixpoint insert (cmp : A -> A -> Z) (x : A) (l : list A) : list A :=
  match l with
  | [] => [x]
  | y :: l' => if cmp x y <=? 0 then x :: l else y :: insert cmp x l'
  end.

Fixpoint sort (cmp : A -> A -> Z) (l : list A) : list A :=
  match l with
  | [] => []
  | x :: l' => insert cmp x (sort cmp l')
  end.

(** The defined elements of an array, in order. *)
Fixpoint defined (l : list (option A)) : list A :=
  match l with
  | [] => []
  | Some x :: l' => x :: defined l'
  | None :: l' => defined l'
  end.

Fixpoint undefineds (l : list (option A)) : list (option A) :=
  match l with
  | [] => []
  | Some _ :: l' => undefineds l'
  | None :: l' => None :: undefineds l'
  end.

(** [sort] on an array that may hold [undefined]: the comparator is never
    called on [undefined], which is moved to the end. *)
Definition sortU (cmp : A -> A -> Z) (l : list (option A)) : list (option A) :=
  map Some (sort cmp (defined l)) ++ undefineds l.

(** [a[i]], and the i-th variable of a destructuring pattern:
    [undefined] past the end. *)
Definition at_ (l : list A) (i : nat) : option A := nth_error l i.

Definition atU (l : list (option A)) (i : nat) : option A :=
  match nth_error l i with
  | Some v => v
  | None => None
  end.
End Arrays.

End JS.

(** ** Reading [c.id], and the short-circuit [&&] *)

Definition get_id (c : option Card) : result string :=
  match c with
  | Some c => Ok (id c)
  | None => Throw TypeError
  end.

(** [a.id === b.id]: the left operand is evaluated first. *)
Definition same_id (a b : option Card) : result bool :=
  x <- get_id a ;; y <- get_id b ;; Ok (String.eqb x y).

(** [p && q]: [q] is evaluated only when [p] is true. *)
Definition and_also (p q : result bool) : result bool :=
  b <- p ;; if (b : bool) then q else Ok false.

Infix "&&&" := and_also (at level 40, left associativity).

(** ** [Record<Suit, Card[]>] *)

Record SuitCounts : Type := mkSuitCounts {
  in_clubs : list Card;
  in_diamonds : list Card;
  in_hearts : list Card;
  in_spades : list Card
}.

Definition emptyCounts : SuitCounts := mkSuitCounts [] [] [] [].

Definition count_of (sc : SuitCounts) (s : Suit) : list Card :=
  match s with
  | clubs => in_clubs sc
  | diamonds => in_diamonds sc
  | hearts => in_hearts sc
  | spades => in_spades sc
  end.

(** [suitCounts[c.suit].push(c)] *)
Definition push (sc : SuitCounts) (c : Card) : SuitCounts :=
  match suit c with
  | clubs => mkSuitCounts (in_clubs sc ++ [c]) (in_diamonds sc) (in_hearts sc) (in_spades sc)
  | diamonds => mkSuitCounts (in_clubs sc) (in_diamonds sc ++ [c]) (in_hearts sc) (in_spades sc)
  | hearts => mkSuitCounts (in_clubs sc) (in_diamonds sc) (in_hearts sc ++ [c]) (in_spades sc)
  | spades => mkSuitCounts (in_clubs sc) (in_diamonds sc) (in_hearts sc) (in_spades sc ++ [c])
  end.

(** The value the encoder returns. *)
Record Arrangement : Type := mkArrangement {
  indicator : Card;
  hidden : Card;
  codeCards : list (option Card)
}.

(** ** src/verify_logic.ts *)

Module VerifyLogic.

Definition SUITS : list Suit := [spades; hearts; clubs; diamonds].

Definition SUIT_ORDER (s : Suit) : Z :=
  match s with
  | clubs => 0
  | diamonds => 1
  | hearts => 2
  | spades => 3
  end.

Definition getCardRank (c : Card) : Z := (value c - 1) * 4 + SUIT_ORDER (suit c).

(** The comparator [(a, b) => getCardRank(a) - getCardRank(b)]. *)
Definition byRank (a b : Card) : Z := getCardRank a - getCardRank b.

(** [hand.forEach(c => suitCounts[c.suit].push(c))] *)
Definition suitCounts (hand : list Card) : SuitCounts :=
  fold_left push hand emptyCounts.

(** The loop over [SUITS] that stops at the first suit with two cards. *)
Fixpoint findPair (sc : SuitCounts) (suits : list Suit) : list Card :=
  match suits with
  | [] => []
  | s :: rest =>
      if (2 <=? List.length (count_of sc s))%nat then firstn 2 (count_of sc s)
      else findPair sc rest
  end.

(** The choice of [indicator], [hidden] and [offset] from the pair. *)
Definition orient (c1 c2 : Card) : Card * Card * Z :=
  let v1 := value c1 in
  let v2 := value c2 in
  let dist1to2 := Z.rem (v2 - v1 + 13) 13 in
  let dist2to1 := Z.rem (v1 - v2 + 13) 13 in
  if (0 <? dist1to2) && (dist1to2 <=? 6) then (c1, c2, dist1to2)
  else (c2, c1, dist2to1).

(** The [switch (offset)]. *)
Definition permute (offset : Z) (low mid high : option Card) : list (option Card) :=
  match offset with
  | 1 => [low; mid; high]
  | 2 => [low; high; mid]
  | 3 => [mid; low; high]
  | 4 => [mid; high; low]
  | 5 => [high; low; mid]
  | 6 => [high; mid; low]
  | _ => [low; mid; high]
  end.

Definition remainingOf (hand : list Card) (indicator hidden : Card) : list Card :=
  filter (fun c => negb (String.eqb (id c) (id indicator))
                   && negb (String.eqb (id c) (id hidden))) hand.

Definition getFitchCheneyArrangement (hand : list Card) : result Arrangement :=
  let sameSuitPair := findPair (suitCounts hand) SUITS in
  match sameSuitPair with
  | c1 :: c2 :: _ =>
      let '(indicator, hidden, offset) := orient c1 c2 in
      let remaining := remainingOf hand indicator hidden in
      let sortedRemaining := JS.sort byRank remaining in
      let low := JS.at_ sortedRemaining 0 in
      let mid := JS.at_ sortedRemaining 1 in
      let high := JS.at_ sortedRemaining 2 in
      Ok (mkArrangement indicator hidden (permute offset low mid high))
  | _ => Throw TypeError (* [c1.value] or [c2.value] of [undefined] *)
  end.

(** The if-else chain of [decode] that recovers the offset. *)
Definition decodeOffset (codeCards : list (option Card)) : result Z :=
  let sorted := JS.sortU byRank codeCards in
  let L := JS.atU sorted 0 in
  let M := JS.atU sorted 1 in
  let H := JS.atU sorted 2 in
  let c1 := JS.atU codeCards 0 in
  let c2 := JS.atU codeCards 1 in
  let c3 := JS.atU codeCards 2 in
  b1 <- same_id c1 L &&& same_id c2 M &&& same_id c3 H ;;
  if (b1 : bool) then Ok 1 else
  b2 <- same_id c1 L &&& same_id c2 H &&& same_id c3 M ;;
  if (b2 : bool) then Ok 2 else
  b3 <- same_id c1 M &&& same_id c2 L &&& same_id c3 H ;;
  if (b3 : bool) then Ok 3 else
  b4 <- same_id c1 M &&& same_id c2 H &&& same_id c3 L ;;
  if (b4 : bool) then Ok 4 else
  b5 <- same_id c1 H &&& same_id c2 L &&& same_id c3 M ;;
  if (b5 : bool) then Ok 5 else
  b6 <- same_id c1 H &&& same_id c2 M &&& same_id c3 L ;;
  if (b6 : bool) then Ok 6 else
  Ok 0.

Definition decode (indicator : Card) (codeCards : list (option Card)) : result Card :=
  offset <- decodeOffset codeCards ;;
  let hiddenValue := Z.rem (value indicator + offset - 1) 13 + 1 in
  Ok (mkCard "predicted" (suit indicator) hiddenValue (displayValue indicator)).

End VerifyLogic.

(** ** src/src/App.tsx *)

Module App.

Definition SUITS : list Suit := [spades; hearts; clubs; diamonds].

Definition SUIT_ORDER (s : Suit) : Z :=
  match s with
  | clubs => 0
  | diamonds => 1
  | hearts => 2
  | spades => 3
  end.

Definition getCardRank (c : Card) : Z := (value c - 1) * 4 + SUIT_ORDER (suit c).

Definition byRank (a b : Card) : Z := getCardRank a - getCardRank b.

Definition suitCounts (hand : list Card) : SuitCounts :=
  fold_left push hand emptyCounts.

Fixpoint findPair (sc : SuitCounts) (suits : list Suit) : list Card :=
  match suits with
  | [] => []
  | s :: rest =>
      if (2 <=? List.length (count_of sc s))%nat then firstn 2 (count_of sc s)
      else findPair sc rest
  end.

Definition orient (c1 c2 : Card) : Card * Card * Z :=
  let v1 := value c1 in
  let v2 := value c2 in
  let dist1to2 := Z.rem (v2 - v1 + 13) 13 in
  let dist2to1 := Z.rem (v1 - v2 + 13) 13 in
  if (0 <? dist1to2) && (dist1to2 <=? 6) then (c1, c2, dist1to2)
  else (c2, c1, dist2to1).

Definition permute (offset : Z) (low mid high : option Card) : list (option Card) :=
  match offset with
  | 1 => [low; mid; high]
  | 2 => [low; high; mid]
  | 3 => [mid; low; high]
  | 4 => [mid; high; low]
  | 5 => [high; low; mid]
  | 6 => [high; mid; low]
  | _ => [low; mid; high] (* Should not happen *)
  end.

Definition remainingOf (hand : list Card) (indicator hidden : Card) : list Card :=
  filter (fun c => negb (String.eqb (id c) (id indicator))
                   && negb (String.eqb (id c) (id hidden))) hand.

Definition getFitchCheneyArrangement (hand : list Card) : result Arrangement :=
  if negb (List.length hand =? 5)%nat then Throw (Error "Need exactly 5 cards") else
  let sameSuitPair := findPair (suitCounts hand) SUITS in
  match sameSuitPair with
  | c1 :: c2 :: _ =>
      let '(indicator, hidden, offset) := orient c1 c2 in
      let remaining := remainingOf hand indicator hidden in
      let sortedRemaining := JS.sort byRank remaining in
      let low := JS.at_ sortedRemaining 0 in
      let mid := JS.at_ sortedRemaining 1 in
      let high := JS.at_ sortedRemaining 2 in
      Ok (mkArrangement indicator hidden (permute offset low mid high))
  | _ => Throw TypeError
  end.

(** The deck the application builds ([useEffect] of [App]): for each suit of
    [SUITS], the values 1 to 13. *)
Definition displayValueOf (v : Z) : string :=
  if v =? 1 then "A"
  else if v =? 11 then "J"
  else if v =? 12 then "Q"
  else if v =? 13 then "K"
  else NilEmpty.string_of_int (Z.to_int v).

Definition deckCard (s : Suit) (v : Z) : Card :=
  mkCard (Suit_name s ++ "-" ++ NilEmpty.string_of_int (Z.to_int v))%string
         s v (displayValueOf v).

Definition values : list Z := map Z.of_nat (seq 1 13).

Definition deck : list Card :=
  flat_map (fun s => map (deckCard s) values) SUITS.

End App.

(** ** Valid hands

    A hand is five cards with values 1 to 13, no two of the same suit and
    value.  The field [id] is the identifier the code compares cards by: the
    application gives the card of suit [s] and value [v] the id ["s-v"] and
    refuses a second card of an id already in the hand, the verification
    script numbers its cards; in both, no two cards of a hand share an id. *)

Definition face (c : Card) : Suit * Z := (suit c, value c).

Record valid_hand (h : list Card) : Prop := mkValid {
  hand_size : List.length h = 5%nat;
  hand_values : Forall (fun c => 1 <= value c <= 13) h;
  hand_distinct : NoDup (map face h);
  hand_ids : NoDup (map id h)
}.

(** The clockwise distance on the 13-hour clock, as the comment of
    App.tsx gives it: [dist(a, b) = (b - a + 13) % 13]. *)
Definition dist (a b : Z) : Z := Z.rem (b - a + 13) 13.

(** The cards of a suit, and the cards other than a given one, as the
    filters of the code select them. *)
Definition of_suit (s : Suit) (c : Card) : bool := Suit_eqb (suit c) s.

Definition other_than (x : Card) (c : Card) : bool :=
  negb (String.eqb (id c) (id x)).

(** What a run of the encoder on the hand [h] goes through: the pair
    [c1], [c2], the indicator [i], the hidden card [hd], the offset [o] and
    the sorted remaining cards [l], [m], [hi]. *)
Record encoding (h : list Card) (c1 c2 i hd : Card) (o : Z) (l m hi : Card) : Prop :=
  mkEncoding {
  enc_pair :
    VerifyLogic.findPair (VerifyLogic.suitCounts h) VerifyLogic.SUITS = [c1; c2];
  enc_suit : suit c1 = suit c2;
  enc_values : 1 <= value c1 <= 13 /\ 1 <= value c2 <= 13 /\ value c1 <> value c2;
  enc_orient : VerifyLogic.orient c1 c2 = (i, hd, o);
  enc_which : (i = c1 /\ hd = c2) \/ (i = c2 /\ hd = c1);
  enc_dist : o = dist (value i) (value hd);
  enc_offset : 1 <= o <= 6;
  enc_clock : Z.rem (value i + o - 1) 13 + 1 = value hd;
  enc_sorted :
    JS.sort VerifyLogic.byRank (VerifyLogic.remainingOf h i hd) = [l; m; hi];
  enc_ranks :
    VerifyLogic.getCardRank l < VerifyLogic.getCardRank m /\
    VerifyLogic.getCardRank m < VerifyLogic.getCardRank hi;
  enc_ids : id l <> id m /\ id l <> id hi /\ id m <> id hi;
  enc_perm : Permutation h [i; hd; l; m; hi];
  enc_result :
    VerifyLogic.getFitchCheneyArrangement h =
    Ok (mkArrangement i hd (VerifyLogic.permute o (Some l) (Some m) (Some hi)))
}.

(** ** Deciding that a list has no duplicates *)

Fixpoint distinctb {A : Type} (eqb : A -> A -> bool) (l : list A) : bool :=
  match l with
  | [] => true
  | x :: l' => negb (existsb (eqb x) l') && distinctb eqb l'
  end.

Definition face_eqb (p q : Suit * Z) : bool :=
  Suit_eqb (fst p) (fst q) && (snd p =? snd q).

(** ** Concrete hands *)

Definition C3 : Card := App.deckCard clubs 3.
Definition C9 : Card := App.deckCard clubs 9.
Definition H2 : Card := App.deckCard hearts 2.
Definition SK : Card := App.deckCard spades 13.
Definition D7 : Card := App.deckCard diamonds 7.
Definition HA : Card := App.deckCard hearts 1.

(** The hand of the specification's exemplar. *)
Definition exemplar : list Card := [C3; C9; H2; SK; D7].

(** ** src/src/App.tsx: the state of the component [App] and its handlers

    The six [useState] cells are one record.  A handler is a function of the
    state of the render it was created in, which is the current state: one
    event is handled per render. *)

Module Ui.

Inductive Phase : Type := selection | stage | reveal.

Record State : Type := mkState {
  deck : list Card;
  hand : list Card;
  phase : Phase;
  activeSuit : Suit;
  solution : option Arrangement;
  isHiddenRevealed : bool
}.

(** The initial values given to [useState]. *)
Definition initial : State := mkState [] [] selection spades None false.

(** The effect run on mount: [setDeck(newDeck)]. *)
Definition initDeck (s : State) : State :=
  mkState App.deck (hand s) (phase s) (activeSuit s) (solution s) (isHiddenRevealed s).

(** [hand.find(h => h.id === card.id)] *)
Definition findById (l : list Card) (card : Card) : option Card :=
  find (fun h => String.eqb (id h) (id card)) l.

Definition setHand (s : State) (h : list Card) : State :=
  mkState (deck s) h (phase s) (activeSuit s) (solution s) (isHiddenRevealed s).

Definition handleCardClick (s : State) (card : Card) : State :=
  match phase s with
  | selection =>
      match findById (hand s) card with
      | Some _ =>
          setHand s (filter (fun c => negb (String.eqb (id c) (id card))) (hand s))
      | None =>
          if (List.length (hand s) <? 5)%nat then setHand s (hand s ++ [card])
          else s
      end
  | _ => s
  end.

Definition performMagic (s : State) : result State :=
  if negb (List.length (hand s) =? 5)%nat then Ok s else
  sol <- App.getFitchCheneyArrangement (hand s) ;;
  Ok (mkState (deck s) (hand s) stage (activeSuit s) (Some sol) (isHiddenRevealed s)).


(** [deck.filter(c => c.suit === activeSuit)] *)
Definition visibleDeck (s : State) : list Card :=
  filter (fun c => Suit_eqb (suit c) (activeSuit s)) (deck s).

(** [!!hand.find(c => c.id === card.id)] *)
Definition isInHand (s : State) (card : Card) : bool :=
  match findById (hand s) card with
  | Some _ => true
  | None => false
  end.







End Ui.

(** ** src/verify_logic.ts: the test run

    [Math.random] is outside the program: a call of [randomCard] is given
    what it draws, the suit [SUITS[Math.floor(Math.random() * 4)]] and the
    value [Math.floor(Math.random() * 13) + 1].  The counter [idCounter] is
    passed along. *)

Module Script.

Record Draw : Type := mkDraw {
  drawn_suit : Suit;
  drawn_value : Z
}.

Definition decimal (n : Z) : string := NilEmpty.string_of_int (Z.to_int n).

Definition randomCard (d : Draw) (idCounter : Z) : Card * Z :=
  (mkCard (Suit_name (drawn_suit d) ++ "-" ++ decimal (drawn_value d)
             ++ "-" ++ decimal idCounter)%string
          (drawn_suit d) (drawn_value d) (decimal (drawn_value d)),
   idCounter + 1).

(** [hand.find(x => x.suit === c.suit && x.value === c.value)] *)
Definition findByFace (hand : list Card) (c : Card) : option Card :=
  find (fun x => Suit_eqb (suit x) (suit c) && (value x =? value c)) hand.

(** The loop of [generateHand], from the hand built so far; [None] when the
    draws run out before the hand has five cards.  The result carries the
    counter and the draws that are left. *)
Fixpoint generateHandFrom (draws : list Draw) (hand : list Card) (idCounter : Z)
  : option (list Card * Z * list Draw) :=
  match draws with
  | [] => if (List.length hand <? 5)%nat then None else Some (hand, idCounter, [])
  | d :: rest =>
      if (List.length hand <? 5)%nat then
        let '(c, idCounter') := randomCard d idCounter in
        match findByFace hand c with
        | Some _ => generateHandFrom rest hand idCounter'
        | None => generateHandFrom rest (hand ++ [c]) idCounter'
        end
      else Some (hand, idCounter, draws)
  end.

Definition generateHand (draws : list Draw) (idCounter : Z)
  : option (list Card * Z * list Draw) :=
  generateHandFrom draws [] idCounter.

(** The body of the [try] of one trial: [true] when [passed] is
    incremented. *)
Definition trialPasses (hand : list Card) : bool :=
  match VerifyLogic.getFitchCheneyArrangement hand with
  | Ok a =>
      match VerifyLogic.decode (indicator a) (codeCards a) with
      | Ok predicted =>
          (value predicted =? value (hidden a))
          && Suit_eqb (suit predicted) (suit (hidden a))
      | Throw _ => false
      end
  | Throw _ => false
  end.

Definition TRIALS : nat := 100.

(** The [for] loop, [n] trials to go: the number of trials passed. *)
Fixpoint trials (n : nat) (draws : list Draw) (idCounter : Z) (passed : nat)
  : option nat :=
  match n with
  | O => Some passed
  | S n' =>
      match generateHand draws idCounter with
      | None => None
      | Some (hand, idCounter', draws') =>
          trials n' draws' idCounter'
                 (if trialPasses hand then S passed else passed)
      end
  end.

(** The exit code of the script. *)
Definition main (draws : list Draw) : option Z :=
  match trials TRIALS draws 0 0 with
  | None => None
  | Some passed => Some (if (passed =? TRIALS)%nat then 0 else 1)
  end.

(** Not in the source, used to tell when the loop of [generateHand] ends:
    the number of faces of [draws] that are not in [seen] and not drawn
    before. *)
Fixpoint newFaces (seen : list (Suit * Z)) (draws : list Draw) : nat :=
  match draws with
  | [] => O
  | d :: rest =>
      if existsb (face_eqb (drawn_suit d, drawn_value d)) seen
      then newFaces seen rest
      else S (newFaces (seen ++ [(drawn_suit d, drawn_value d)]) rest)
  end.

End Script.


(** The state of the component after the deck is mounted, the five cards of
    the exemplar are picked under their suit tabs, and the trick is
    performed. *)
Definition demo_state : Ui.State :=
  Ui.mkState App.deck exemplar Ui.stage diamonds
             (Some (mkArrangement C3 C9 [Some SK; Some D7; Some H2])) false.

(** A draw of the values [randomCard] can get from
    [Math.floor(Math.random() * 13) + 1]. *)
Definition draw_in_range (d : Script.Draw) : Prop :=
  1 <= Script.drawn_value d <= 13.

Definition draw_face (d : Script.Draw) : Suit * Z :=
  (Script.drawn_suit d, Script.drawn_value d).

(** The draws hold [k] different faces at least. *)
Definition holds_faces (k : nat) (draws : list Script.Draw) : Prop :=
  exists l : list (Suit * Z),
    NoDup l /\ incl l (map draw_face draws) /\ List.length l = k.

(** A card as [randomCard] makes it, with some number at the end of its id. *)
Definition script_card (c : Card) : Prop :=
  1 <= value c <= 13 /\
  exists n : Z,
    id c = (Suit_name (suit c) ++ "-" ++ Script.decimal (value c)
              ++ "-" ++ Script.decimal n)%string.

(** Draws for a full run of the script: the five cards of the exemplar, a
    hundred times. *)
Definition demo_block : list Script.Draw :=
  [Script.mkDraw clubs 3; Script.mkDraw clubs 9; Script.mkDraw hearts 2;
   Script.mkDraw spades 13; Script.mkDraw diamonds 7].

(** The hand the script makes of the first five of them, the counter at 0. *)
Definition demo_script_hand : list Card :=
  map (fun dn => fst (Script.randomCard (fst dn) (snd dn)))
      (combine demo_block [0; 1; 2; 3; 4]).

Definition demo_draws : list Script.Draw :=
  List.concat (repeat demo_block Script.TRIALS).

(** * Tactics *)

(** Case analysis on the comparisons a sort makes. *)
Ltac by_rank :=
  unfold VerifyLogic.byRank;
  repeat match goal with
         | |- context [?a <=? ?b] => destruct (Z.leb_spec a b); try lia
         end.

(** One step of a proof that two explicit lists are permutations. *)
Ltac perm_step :=
  match goal with
  | |- Permutation [] [] => constructor
  | |- Permutation (?x :: _) (?x :: _) => apply perm_skip
  | |- Permutation (?x :: _) (?y :: ?x :: ?r) =>
      apply (Permutation_cons_app [y] r); simpl
  | |- Permutation (?x :: _) (?y :: ?z :: ?x :: ?r) =>
      apply (Permutation_cons_app [y; z] r); simpl
  | |- Permutation (?x :: _) (?y :: ?z :: ?w :: ?x :: ?r) =>
      apply (Permutation_cons_app [y; z; w] r); simpl
  | |- Permutation (?x :: _) (?y :: ?z :: ?w :: ?v :: ?x :: ?r) =>
      apply (Permutation_cons_app [y; z; w; v] r); simpl
  end.


(** Runs the tests of the decoder on explicit cards. *)
Ltac run_chain :=
  unfold same_id, and_also; simpl;
  rewrite ?String.eqb_refl; simpl;
  repeat match goal with
         | |- context [String.eqb ?a ?b] =>
             destruct (String.eqb a b); simpl; rewrite ?String.eqb_refl; simpl
         end.

(** * Lemmas *)

(** ** Sorting *)

Section SortFacts.
Context {A : Type} (cmp : A -> A -> Z).

Lemma insert_perm (x : A) (l : list A) :
  Permutation (JS.insert cmp x l) (x :: l).
Proof.
  induction l as [|y l IH]; simpl.
  - apply Permutation_refl.
  - destruct (cmp x y <=? 0).
    + apply Permutation_refl.
    + apply perm_trans with (y :: x :: l).
      * now apply perm_skip.
      * apply perm_swap.
Qed.

Lemma sort_perm (l : list A) : Permutation (JS.sort cmp l) l.
Proof.
  induction l as [|x l IH]; simpl.
  - constructor.
  - apply perm_trans with (x :: JS.sort cmp l).
    + apply insert_perm.
    + now apply perm_skip.
Qed.

Lemma sort_length (l : list A) : List.length (JS.sort cmp l) = List.length l.
Proof. apply Permutation_length, sort_perm. Qed.

Lemma defined_map_Some (l : list A) : JS.defined (map Some l) = l.
Proof. induction l; simpl; congruence. Qed.

Lemma undefineds_map_Some (l : list A) : JS.undefineds (map Some l) = [].
Proof. induction l; simpl; congruence. Qed.

Lemma sortU_map_Some (l : list A) :
  JS.sortU cmp (map Some l) = map Some (JS.sort cmp l).
Proof.
  unfold JS.sortU.
  now rewrite defined_map_Some, undefineds_map_Some, app_nil_r.
Qed.

Lemma sortU_perm (l : list (option A)) : Permutation (JS.sortU cmp l) l.
Proof.
  unfold JS.sortU.
  apply perm_trans with (map Some (JS.defined l) ++ JS.undefineds l).
  - apply Permutation_app_tail, Permutation_map, sort_perm.
  - induction l as [|[x|] l IH]; simpl.
    + constructor.
    + now apply perm_skip.
    + apply Permutation_sym, Permutation_cons_app, Permutation_sym, IH.
Qed.
End SortFacts.

(** ** The cards of each suit *)

Lemma Suit_eqb_eq (a b : Suit) : Suit_eqb a b = true <-> a = b.
Proof. destruct a, b; simpl; split; congruence. Qed.

Lemma count_of_push (sc : SuitCounts) (c : Card) (s : Suit) :
  count_of (push sc c) s =
  count_of sc s ++ (if of_suit s c then [c] else []).
Proof.
  unfold push, of_suit.
  destruct (suit c), s; simpl; now rewrite ?app_nil_r.
Qed.

Lemma count_of_fold (l : list Card) (acc : SuitCounts) (s : Suit) :
  count_of (fold_left push l acc) s = count_of acc s ++ filter (of_suit s) l.
Proof.
  revert acc; induction l as [|c l IH]; intros acc; simpl.
  - now rewrite app_nil_r.
  - rewrite IH, count_of_push, <- app_assoc.
    now destruct (of_suit s c).
Qed.

Lemma suitCounts_filter (hand : list Card) (s : Suit) :
  count_of (VerifyLogic.suitCounts hand) s = filter (of_suit s) hand.
Proof. unfold VerifyLogic.suitCounts. rewrite count_of_fold. now destruct s. Qed.

(** Every card is counted under exactly one suit. *)
Lemma suit_lengths (l : list Card) :
  (List.length l =
   List.length (filter (of_suit spades) l) + List.length (filter (of_suit hearts) l)
   + List.length (filter (of_suit clubs) l) + List.length (filter (of_suit diamonds) l))%nat.
Proof.
  induction l as [|c l IH]; simpl; [reflexivity|].
  unfold of_suit in *.
  destruct (suit c); simpl; lia.
Qed.

(** What the loop over the suits finds. *)
Lemma findPair_spec (sc : SuitCounts) (suits : list Suit) :
  (VerifyLogic.findPair sc suits = [] /\
   Forall (fun s => (List.length (count_of sc s) < 2)%nat) suits)
  \/ exists s c1 c2 rest,
       In s suits /\ count_of sc s = c1 :: c2 :: rest /\
       VerifyLogic.findPair sc suits = [c1; c2].
Proof.
  induction suits as [|s suits IH]; cbn [VerifyLogic.findPair].
  - left; split; [reflexivity | constructor].
  - destruct (Nat.leb_spec 2 (List.length (count_of sc s))) as [Hge|Hlt].
    + right.
      destruct (count_of sc s) as [|c1 [|c2 rest]] eqn:E; simpl in Hge; try lia.
      exists s, c1, c2, rest; repeat split; auto. now left.
    + destruct IH as [[E F]|(s' & c1 & c2 & rest & Hin & Hc & E)].
      * left; split; [exact E | now constructor].
      * right; exists s', c1, c2, rest; repeat split; auto. now right.
Qed.

(** Pigeonhole: five cards, four suits. *)
Lemma pigeonhole (hand : list Card) :
  (5 <= List.length hand)%nat ->
  exists s c1 c2 rest,
    filter (of_suit s) hand = c1 :: c2 :: rest /\
    VerifyLogic.findPair (VerifyLogic.suitCounts hand) VerifyLogic.SUITS = [c1; c2].
Proof.
  intros Hlen.
  destruct (findPair_spec (VerifyLogic.suitCounts hand) VerifyLogic.SUITS)
    as [[_ F]|(s & c1 & c2 & rest & _ & Hc & E)].
  - exfalso.
    unfold VerifyLogic.SUITS in F.
    repeat match goal with
           | H : Forall _ (_ :: _) |- _ => inversion H; clear H; subst
           end.
    rewrite suitCounts_filter in *.
    pose proof (suit_lengths hand). lia.
  - rewrite suitCounts_filter in Hc.
    now exists s, c1, c2, rest.
Qed.

(** ** Lists without duplicates *)

Section ListFacts.
Context {A B : Type}.

Lemma filter_all (p : A -> bool) (l : list A) :
  (forall x, In x l -> p x = true) -> filter p l = l.
Proof.
  induction l as [|a l IH]; intros H; simpl; [reflexivity|].
  rewrite (H a (or_introl eq_refl)), IH; [reflexivity|].
  intros x Hx; apply H; now right.
Qed.

Lemma filter_andb (p q : A -> bool) (l : list A) :
  filter (fun x => p x && q x) l = filter q (filter p l).
Proof.
  induction l as [|a l IH]; simpl; [reflexivity|].
  destruct (p a); simpl; [destruct (q a)|]; now rewrite IH.
Qed.

Lemma NoDup_map_filter (keep : A -> bool) (key : A -> B) (xs : list A)
  (Hxs : NoDup (map key xs)) :
  NoDup (map key (filter keep xs)).
Proof.
  induction xs as [|a xs IH]; simpl in *; [constructor|].
  inversion Hxs as [|? ? Hnin Hnd]; subst.
  destruct (keep a); simpl; [constructor|]; auto.
  intros Hin; apply Hnin.
  apply in_map_iff in Hin; destruct Hin as (x & Hx & Hxl).
  apply filter_In in Hxl; destruct Hxl as [Hxl _].
  apply in_map_iff; now exists x.
Qed.

Lemma NoDup_map_head2 (f : A -> B) (x y : A) (l : list A) :
  NoDup (map f (x :: y :: l)) -> f x <> f y.
Proof.
  simpl; intros H E; inversion H as [|? ? Hnin _]; subst.
  apply Hnin; left; now symmetry.
Qed.

Lemma NoDup_map_perm (f : A -> B) (l l' : list A) :
  Permutation l l' -> NoDup (map f l) -> NoDup (map f l').
Proof.
  intros P; apply Permutation_NoDup, Permutation_map, P.
Qed.
End ListFacts.

(** Filtering out the id of a card of the hand removes that card and no
    other, when ids are not shared. *)
Lemma remove_by_id (l : list Card) (x : Card) :
  NoDup (map id l) -> In x l ->
  Permutation l (x :: filter (other_than x) l).
Proof.
  induction l as [|a l IH]; intros Hnd Hin; [destruct Hin|].
  simpl in Hnd; inversion Hnd as [|? ? Hnin Hnd']; subst.
  destruct Hin as [->|Hin]; simpl.
  - unfold other_than at 1; rewrite String.eqb_refl; simpl.
    rewrite filter_all; [apply Permutation_refl|].
    intros c Hc; unfold other_than.
    apply negb_true_iff, String.eqb_neq; intros E.
    apply Hnin; rewrite <- E; now apply in_map.
  - assert (Hax : id a <> id x).
    { intros E; apply Hnin; rewrite E; now apply in_map. }
    unfold other_than at 1.
    apply String.eqb_neq in Hax; rewrite Hax; simpl.
    apply perm_trans with (a :: x :: filter (other_than x) l).
    + apply perm_skip; now apply IH.
    + apply perm_swap.
Qed.

Lemma remainingOf_perm (h : list Card) (i hd : Card) :
  NoDup (map id h) -> In i h -> In hd h -> id i <> id hd ->
  Permutation h (i :: hd :: VerifyLogic.remainingOf h i hd).
Proof.
  intros Hnd Hi Hhd Hne.
  unfold VerifyLogic.remainingOf.
  change (fun c : Card => negb (String.eqb (id c) (id i))
                          && negb (String.eqb (id c) (id hd)))
    with (fun c : Card => other_than i c && other_than hd c).
  rewrite filter_andb.
  apply perm_trans with (i :: filter (other_than i) h).
  - now apply remove_by_id.
  - apply perm_skip, remove_by_id.
    + now apply NoDup_map_filter.
    + apply filter_In; split; [assumption|].
      unfold other_than; apply negb_true_iff, String.eqb_neq; congruence.
Qed.

(** ** The card key *)

Lemma SUIT_ORDER_range (s : Suit) : 0 <= VerifyLogic.SUIT_ORDER s <= 3.
Proof. destruct s; simpl; lia. Qed.

Lemma SUIT_ORDER_inj (s t : Suit) :
  VerifyLogic.SUIT_ORDER s = VerifyLogic.SUIT_ORDER t -> s = t.
Proof. destruct s, t; simpl; intros; try reflexivity; lia. Qed.

Lemma getCardRank_inj (a b : Card) :
  VerifyLogic.getCardRank a = VerifyLogic.getCardRank b -> face a = face b.
Proof.
  unfold VerifyLogic.getCardRank, face; intros E.
  pose proof (SUIT_ORDER_range (suit a)); pose proof (SUIT_ORDER_range (suit b)).
  assert (Hv : value a = value b) by lia.
  f_equal; [apply SUIT_ORDER_inj; lia | exact Hv].
Qed.

(** ** Indicator, hidden card and offset *)

Lemma orient_spec (c1 c2 : Card) :
  1 <= value c1 <= 13 -> 1 <= value c2 <= 13 -> value c1 <> value c2 ->
  exists i hd o,
    VerifyLogic.orient c1 c2 = (i, hd, o) /\
    ((i = c1 /\ hd = c2) \/ (i = c2 /\ hd = c1)) /\
    o = dist (value i) (value hd) /\
    1 <= o <= 6 /\
    Z.rem (value i + o - 1) 13 + 1 = value hd.
Proof.
  intros H1 H2 Hne.
  unfold VerifyLogic.orient, dist.
  destruct (Z.ltb_spec 0 (Z.rem (value c2 - value c1 + 13) 13));
    destruct (Z.leb_spec (Z.rem (value c2 - value c1 + 13) 13) 6); simpl.
  - exists c1, c2, (Z.rem (value c2 - value c1 + 13) 13).
    repeat split; auto; try lia.
    Z.to_euclidean_division_equations; lia.
  - exists c2, c1, (Z.rem (value c1 - value c2 + 13) 13).
    repeat split; auto; Z.to_euclidean_division_equations; lia.
  - exists c2, c1, (Z.rem (value c1 - value c2 + 13) 13).
    repeat split; auto; Z.to_euclidean_division_equations; lia.
  - exists c2, c1, (Z.rem (value c1 - value c2 + 13) 13).
    repeat split; auto; Z.to_euclidean_division_equations; lia.
Qed.

(** ** Three cards, sorted and permuted *)

Lemma sort3 (x y z : Card) :
  VerifyLogic.getCardRank x <> VerifyLogic.getCardRank y ->
  VerifyLogic.getCardRank x <> VerifyLogic.getCardRank z ->
  VerifyLogic.getCardRank y <> VerifyLogic.getCardRank z ->
  exists l m h,
    JS.sort VerifyLogic.byRank [x; y; z] = [l; m; h] /\
    VerifyLogic.getCardRank l < VerifyLogic.getCardRank m /\
    VerifyLogic.getCardRank m < VerifyLogic.getCardRank h.
Proof.
  intros Hxy Hxz Hyz; simpl.
  by_rank; simpl; by_rank; simpl; by_rank;
    do 3 eexists; (split; [reflexivity | lia]).
Qed.

Lemma sort_permute (o : Z) (l m h : Card) :
  VerifyLogic.getCardRank l < VerifyLogic.getCardRank m ->
  VerifyLogic.getCardRank m < VerifyLogic.getCardRank h ->
  JS.sortU VerifyLogic.byRank (VerifyLogic.permute o (Some l) (Some m) (Some h))
  = [Some l; Some m; Some h].
Proof.
  intros Hlm Hmh.
  assert (E : forall a b c : Card,
             [Some a; Some b; Some c] = map Some [a; b; c]) by reflexivity.
  unfold VerifyLogic.permute.
  destruct o as [|[[[]|[]|]|[[]|[]|]|]|]; rewrite E, sortU_map_Some; simpl;
    by_rank; simpl; by_rank; reflexivity.
Qed.

Lemma decodeOffset_permute (o : Z) (l m h : Card) :
  VerifyLogic.getCardRank l < VerifyLogic.getCardRank m ->
  VerifyLogic.getCardRank m < VerifyLogic.getCardRank h ->
  id l <> id m -> id l <> id h -> id m <> id h ->
  1 <= o <= 6 ->
  VerifyLogic.decodeOffset (VerifyLogic.permute o (Some l) (Some m) (Some h)) = Ok o.
Proof.
  intros Hlm Hmh Ilm Ilh Imh Ho.
  unfold VerifyLogic.decodeOffset.
  rewrite sort_permute by assumption.
  assert (Ilm' : id m <> id l) by congruence.
  assert (Ilh' : id h <> id l) by congruence.
  assert (Imh' : id h <> id m) by congruence.
  apply String.eqb_neq in Ilm, Ilh, Imh, Ilm', Ilh', Imh'.
  assert (Hcase : o = 1 \/ o = 2 \/ o = 3 \/ o = 4 \/ o = 5 \/ o = 6) by lia.
  destruct Hcase as [->|[->|[->|[->|[->| ->]]]]];
    unfold same_id, and_also; simpl;
    rewrite ?String.eqb_refl, ?Ilm, ?Ilh, ?Imh, ?Ilm', ?Ilh', ?Imh'; simpl;
    rewrite ?String.eqb_refl, ?Ilm, ?Ilh, ?Imh, ?Ilm', ?Ilh', ?Imh'; simpl;
    reflexivity.
Qed.

(** ** The encoder on a valid hand *)

Lemma filter_head2 (p : Card -> bool) (h : list Card) (c1 c2 : Card) (rest : list Card) :
  filter p h = c1 :: c2 :: rest ->
  In c1 h /\ In c2 h /\ p c1 = true /\ p c2 = true.
Proof.
  intros E.
  assert (H1 : In c1 (filter p h)) by (rewrite E; now left).
  assert (H2 : In c2 (filter p h)) by (rewrite E; right; now left).
  apply filter_In in H1, H2; tauto.
Qed.

Lemma NoDup3 {B : Type} (f : Card -> B) (x y z : Card) :
  NoDup (map f [x; y; z]) -> f x <> f y /\ f x <> f z /\ f y <> f z.
Proof.
  simpl; intros H.
  inversion H as [|? ? N1 H']; subst.
  inversion H' as [|? ? N2 _]; subst.
  simpl in N1, N2; intuition congruence.
Qed.

Lemma encode_valid (h : list Card) :
  valid_hand h -> exists c1 c2 i hd o l m hi, encoding h c1 c2 i hd o l m hi.
Proof.
  intros [Hlen Hval Hface Hid].
  destruct (pigeonhole h) as (s & c1 & c2 & rest & Hf & Hpair); [lia|].
  destruct (filter_head2 _ _ _ _ _ Hf) as (Hin1 & Hin2 & Hs1 & Hs2).
  apply Suit_eqb_eq in Hs1, Hs2.
  assert (Hsuit : suit c1 = suit c2) by congruence.
  assert (Hfne : face c1 <> face c2).
  { apply (NoDup_map_head2 face c1 c2 rest).
    rewrite <- Hf; now apply NoDup_map_filter. }
  assert (Hine : id c1 <> id c2).
  { apply (NoDup_map_head2 id c1 c2 rest).
    rewrite <- Hf; now apply NoDup_map_filter. }
  assert (Hvne : value c1 <> value c2).
  { intros E; apply Hfne; unfold face; congruence. }
  rewrite Forall_forall in Hval.
  pose proof (Hval _ Hin1) as Hv1; pose proof (Hval _ Hin2) as Hv2.
  destruct (orient_spec c1 c2 Hv1 Hv2 Hvne)
    as (i & hd & o & Hor & Hwhich & Hd & Ho & Hclock).
  assert (Hperm : Permutation h (i :: hd :: VerifyLogic.remainingOf h i hd)).
  { destruct Hwhich as [[-> ->]|[-> ->]];
      apply remainingOf_perm; auto. }
  pose proof (Permutation_length Hperm) as Hl; simpl in Hl.
  destruct (VerifyLogic.remainingOf h i hd) as [|x [|y [|z [|]]]] eqn:Hrem;
    simpl in Hl; try lia.
  pose proof (NoDup_map_perm face _ _ Hperm Hface) as Hf5.
  pose proof (NoDup_map_perm id _ _ Hperm Hid) as Hi5.
  simpl in Hf5, Hi5.
  apply NoDup_cons_iff in Hf5; destruct Hf5 as [_ Hf5].
  apply NoDup_cons_iff in Hf5; destruct Hf5 as [_ Hf5].
  destruct (NoDup3 face x y z Hf5) as (Fxy & Fxz & Fyz).
  destruct (sort3 x y z) as (l & m & hi & Hsort & Hlm & Hmh);
    try (intros E; apply getCardRank_inj in E; contradiction).
  pose proof (sort_perm VerifyLogic.byRank [x; y; z]) as Hsp.
  rewrite Hsort in Hsp.
  assert (Hperm' : Permutation h [i; hd; l; m; hi]).
  { apply perm_trans with (1 := Hperm).
    do 2 apply perm_skip. now apply Permutation_sym. }
  pose proof (NoDup_map_perm id _ _ Hperm' Hid) as Hi5'.
  simpl in Hi5'.
  apply NoDup_cons_iff in Hi5'; destruct Hi5' as [_ Hi5'].
  apply NoDup_cons_iff in Hi5'; destruct Hi5' as [_ Hi5'].
  exists c1, c2, i, hd, o, l, m, hi.
  constructor; auto.
  - now rewrite Hrem.
  - now apply (NoDup3 id).
  - unfold VerifyLogic.getFitchCheneyArrangement.
    rewrite Hpair, Hor, Hrem, Hsort. reflexivity.
Qed.

(** Five cards, valid or not: the encoder returns an arrangement. *)
Lemma five_cards_encode (h : list Card) :
  List.length h = 5%nat ->
  exists a, VerifyLogic.getFitchCheneyArrangement h = Ok a.
Proof.
  intros E.
  destruct (pigeonhole h) as (s & c1 & c2 & rest & _ & Hpair); [lia|].
  unfold VerifyLogic.getFitchCheneyArrangement; rewrite Hpair.
  destruct (VerifyLogic.orient c1 c2) as [[i hd] o].
  eexists; reflexivity.
Qed.

(** ** The two copies of the encoder *)

Lemma App_encoder_unfold (h : list Card) :
  App.getFitchCheneyArrangement h =
  if (List.length h =? 5)%nat then VerifyLogic.getFitchCheneyArrangement h
  else Throw (Error "Need exactly 5 cards").
Proof.
  unfold App.getFitchCheneyArrangement.
  destruct (List.length h =? 5)%nat; reflexivity.
Qed.

Lemma App_encoder_size5 (h : list Card) :
  List.length h = 5%nat ->
  App.getFitchCheneyArrangement h = VerifyLogic.getFitchCheneyArrangement h.
Proof.
  intros E. rewrite App_encoder_unfold, E. reflexivity.
Qed.

(** ** The code cards are the three remaining cards *)

Lemma permute_perm (o : Z) (low mid high : option Card) :
  Permutation (VerifyLogic.permute o low mid high) [low; mid; high].
Proof.
  unfold VerifyLogic.permute.
  destruct o as [|[[[]|[]|]|[[]|[]|]|]|]; repeat perm_step.
Qed.

(** ** The decoder on arbitrary arrays of cards *)

(** Fewer than three cards: some [.id] is read from [undefined]. *)
Lemma decodeOffset_short (cc : list Card) :
  (List.length cc < 3)%nat ->
  VerifyLogic.decodeOffset (map Some cc) = Throw TypeError.
Proof.
  intros Hlen.
  unfold VerifyLogic.decodeOffset; rewrite sortU_map_Some.
  destruct cc as [|a [|b [|c rest]]]; simpl in Hlen; try lia; simpl.
  - reflexivity.
  - run_chain; reflexivity.
  - by_rank; simpl; run_chain; reflexivity.
Qed.

(** Exactly three cards: the array is some order of its sorted form, so one
    of the six tests succeeds. *)
Lemma decodeOffset_three (a b c : Card) :
  exists o, VerifyLogic.decodeOffset [Some a; Some b; Some c] = Ok o /\ 1 <= o <= 6.
Proof.
  unfold VerifyLogic.decodeOffset.
  change [Some a; Some b; Some c] with (map Some [a; b; c]).
  rewrite sortU_map_Some; simpl.
  by_rank; simpl; by_rank; simpl; by_rank; simpl;
    run_chain; eexists; (split; [reflexivity | lia]).
Qed.

(** Three cards or more: no error, whatever the cards. *)
Lemma decodeOffset_total (cc : list Card) :
  (3 <= List.length cc)%nat ->
  exists o, VerifyLogic.decodeOffset (map Some cc) = Ok o /\ 0 <= o <= 6.
Proof.
  intros Hlen.
  unfold VerifyLogic.decodeOffset; rewrite sortU_map_Some.
  pose proof (sort_length VerifyLogic.byRank cc) as Hs.
  destruct (JS.sort VerifyLogic.byRank cc) as [|l [|m [|h r]]];
    simpl in Hs; try lia.
  destruct cc as [|a [|b [|c rest]]]; simpl in Hlen; try lia; simpl.
  run_chain; eexists; (split; [reflexivity | lia]).
Qed.

Lemma decode_unfold (ind : Card) (cc : list (option Card)) (o : Z) :
  VerifyLogic.decodeOffset cc = Ok o ->
  VerifyLogic.decode ind cc =
  Ok (mkCard "predicted" (suit ind) (Z.rem (value ind + o - 1) 13 + 1)
             (displayValue ind)).
Proof. unfold VerifyLogic.decode; intros ->; reflexivity. Qed.

(** ** Lists checked for duplicates by computation *)

Section Distinct.
Context {A : Type} (eqb : A -> A -> bool).
Hypothesis eqb_eq : forall x y, eqb x y = true <-> x = y.

Lemma distinctb_NoDup (l : list A) : distinctb eqb l = true -> NoDup l.
Proof.
  induction l as [|x l IH]; simpl; intros H; [constructor|].
  apply andb_true_iff in H; destruct H as [Hx Hl].
  constructor; [|now apply IH].
  intros Hin. apply negb_true_iff in Hx.
  assert (existsb (eqb x) l = true); [|congruence].
  apply existsb_exists; exists x; split; [assumption | now apply eqb_eq].
Qed.
End Distinct.

Lemma face_eqb_eq (p q : Suit * Z) : face_eqb p q = true <-> p = q.
Proof.
  destruct p as [s v], q as [t w]; unfold face_eqb; simpl.
  rewrite andb_true_iff, Suit_eqb_eq, Z.eqb_eq.
  split; [intros [-> ->]; reflexivity | intros E; inversion E; auto].
Qed.

(** The 52 cards of the deck differ in id, in face and in key. *)
Lemma deck_ids : NoDup (map id App.deck).
Proof. apply (distinctb_NoDup String.eqb String.eqb_eq). vm_compute. reflexivity. Qed.

Lemma deck_faces : NoDup (map face App.deck).
Proof. apply (distinctb_NoDup face_eqb face_eqb_eq). vm_compute. reflexivity. Qed.

Lemma NoDup_map_sub {A B : Type} (f : A -> B) (D l : list A) :
  NoDup (map f D) -> incl l D -> NoDup l -> NoDup (map f l).
Proof.
  intros HD Hsub Hl.
  induction Hl as [|x l Hnin Hl IH]; simpl; [constructor|].
  constructor.
  - intros Hin. apply in_map_iff in Hin; destruct Hin as (y & Hy & Hyl).
    assert (y = x); [|congruence].
    assert (HxD : In x D) by (apply Hsub; now left).
    assert (HyD : In y D) by (apply Hsub; now right).
    clear - HD Hy HxD HyD.
    induction D as [|d D IH]; [destruct HxD|].
    simpl in HD; inversion HD as [|? ? Hn HD']; subst.
    destruct HxD as [->|HxD], HyD as [->|HyD]; auto.
    + exfalso; apply Hn; rewrite <- Hy; now apply in_map.
    + exfalso; apply Hn; rewrite Hy; now apply in_map.
  - apply IH. intros y Hy; apply Hsub; now right.
Qed.

(** Five different cards picked from the deck make a valid hand. *)
Lemma deck_hand_valid (h : list Card) :
  incl h App.deck -> NoDup h -> List.length h = 5%nat -> valid_hand h.
Proof.
  intros Hsub Hnd Hlen; constructor.
  - exact Hlen.
  - apply Forall_forall; intros c Hc.
    assert (HD : Forall (fun c => 1 <= value c <= 13) App.deck).
    { unfold App.deck, App.values; simpl. repeat constructor; simpl; lia. }
    rewrite Forall_forall in HD. apply HD, Hsub, Hc.
  - apply (NoDup_map_sub face App.deck); auto using deck_faces.
  - apply (NoDup_map_sub id App.deck); auto using deck_ids.
Qed.

Lemma exemplar_valid : valid_hand exemplar.
Proof.
  constructor.
  - reflexivity.
  - unfold exemplar; repeat constructor; simpl; lia.
  - apply (distinctb_NoDup face_eqb face_eqb_eq); reflexivity.
  - apply (distinctb_NoDup String.eqb String.eqb_eq); reflexivity.
Qed.

(** * The claims *)

(** C1 (round trip).  For every valid hand [h] the encoder, in either copy,
    returns an arrangement [a], and the decoder applied to the indicator and
    the code cards of [a] returns a card whose suit and value are those of
    the hidden card of [a]. *)
Theorem roundtrip (h : list Card) :
  valid_hand h ->
  exists a p,
    App.getFitchCheneyArrangement h = Ok a /\
    VerifyLogic.getFitchCheneyArrangement h = Ok a /\
    VerifyLogic.decode (indicator a) (codeCards a) = Ok p /\
    suit p = suit (hidden a) /\ value p = value (hidden a).
Proof.
  intros Hv.
  destruct (encode_valid h Hv) as (c1 & c2 & i & hd & o & l & m & hi & E).
  destruct E as [_ Hsuit _ _ Hwhich _ Ho Hclock _ [Hlm Hmh] (I1 & I2 & I3) _ Hres].
  eexists; eexists; split; [|split; [exact Hres|split]].
  - rewrite App_encoder_size5; [exact Hres | apply Hv].
  - simpl. apply decode_unfold. now apply decodeOffset_permute.
  - simpl; split; [|exact Hclock].
    destruct Hwhich as [[-> ->]|[-> ->]]; congruence.
Qed.

Lemma roundtrip_witness :
  valid_hand exemplar /\
  exists a p,
    App.getFitchCheneyArrangement exemplar = Ok a /\
    VerifyLogic.getFitchCheneyArrangement exemplar = Ok a /\
    VerifyLogic.decode (indicator a) (codeCards a) = Ok p /\
    suit p = suit (hidden a) /\ value p = value (hidden a).
Proof.
  split; [exact exemplar_valid | apply (roundtrip exemplar exemplar_valid)].
Defined.

(** C2 (partition).  For every valid hand [h] the encoder returns an
    arrangement whose code cards are three cards [x], [y], [z], and the
    indicator, [x], [y], [z] and the hidden card are the cards of [h], each
    as many times as in [h]. *)
Theorem partition_of_hand (h : list Card) :
  valid_hand h ->
  exists a x y z,
    App.getFitchCheneyArrangement h = Ok a /\
    VerifyLogic.getFitchCheneyArrangement h = Ok a /\
    codeCards a = [Some x; Some y; Some z] /\
    Permutation ([indicator a] ++ [x; y; z] ++ [hidden a]) h.
Proof.
  intros Hv.
  destruct (encode_valid h Hv) as (c1 & c2 & i & hd & o & l & m & hi & E).
  pose proof (enc_perm _ _ _ _ _ _ _ _ _ E) as Hperm.
  pose proof (enc_result _ _ _ _ _ _ _ _ _ E) as Hres.
  assert (Hcode : exists x y z,
             VerifyLogic.permute o (Some l) (Some m) (Some hi) = [Some x; Some y; Some z]
             /\ Permutation [x; y; z] [l; m; hi]).
  { unfold VerifyLogic.permute.
    destruct o as [|[[[]|[]|]|[[]|[]|]|]|];
      do 3 eexists; (split; [reflexivity | repeat perm_step]). }
  destruct Hcode as (x & y & z & Hc & Hp).
  exists (mkArrangement i hd (VerifyLogic.permute o (Some l) (Some m) (Some hi))), x, y, z.
  split; [|split; [exact Hres|split; [exact Hc|]]].
  - rewrite App_encoder_size5; [exact Hres | apply Hv].
  - simpl. apply Permutation_sym.
    apply perm_trans with (1 := Hperm).
    apply perm_skip.
    apply (Permutation_cons_app [x; y; z] []); simpl.
    now apply Permutation_sym.
Qed.

Lemma partition_of_hand_witness :
  valid_hand exemplar /\
  exists a x y z,
    App.getFitchCheneyArrangement exemplar = Ok a /\
    VerifyLogic.getFitchCheneyArrangement exemplar = Ok a /\
    codeCards a = [Some x; Some y; Some z] /\
    Permutation ([indicator a] ++ [x; y; z] ++ [hidden a]) exemplar.
Proof.
  split; [exact exemplar_valid | apply (partition_of_hand exemplar exemplar_valid)].
Defined.

(** C3 (offset range).  For every valid hand the loop over the suits finds a
    pair [c1], [c2]; exactly one of the two clock distances between them is
    in [1,6], so that when [dist1to2] is not, [dist2to1] is; the offset the
    encoder computes is in [1,6], the [switch] is entered on one of its six
    cases, and the decoder recovers that very offset from the code cards. *)
Theorem offset_in_range (h : list Card) :
  valid_hand h ->
  exists c1 c2 i hd o low mid high,
    VerifyLogic.findPair (VerifyLogic.suitCounts h) VerifyLogic.SUITS = [c1; c2] /\
    App.findPair (App.suitCounts h) App.SUITS = [c1; c2] /\
    VerifyLogic.orient c1 c2 = (i, hd, o) /\
    App.orient c1 c2 = (i, hd, o) /\
    App.getFitchCheneyArrangement h =
      Ok (mkArrangement i hd (App.permute o low mid high)) /\
    VerifyLogic.getFitchCheneyArrangement h =
      Ok (mkArrangement i hd (VerifyLogic.permute o low mid high)) /\
    1 <= o <= 6 /\
    (let dist1to2 := dist (value c1) (value c2) in
     let dist2to1 := dist (value c2) (value c1) in
     (~ (0 < dist1to2 /\ dist1to2 <= 6) -> 1 <= dist2to1 <= 6) /\
     ((1 <= dist1to2 <= 6 /\ ~ 1 <= dist2to1 <= 6) \/
      (~ 1 <= dist1to2 <= 6 /\ 1 <= dist2to1 <= 6))) /\
    VerifyLogic.decodeOffset (VerifyLogic.permute o low mid high) = Ok o.
Proof.
  intros Hv.
  destruct (encode_valid h Hv) as (c1 & c2 & i & hd & o & l & m & hi & E).
  destruct E as [Hpair _ (V1 & V2 & Vne) Hor _ _ Ho _ _ [Hlm Hmh] (I1 & I2 & I3) _ Hres].
  exists c1, c2, i, hd, o, (Some l), (Some m), (Some hi).
  repeat match goal with |- _ /\ _ => split end;
    try assumption.
  - rewrite (App_encoder_size5 h (hand_size h Hv)); exact Hres.
  - lia.
  - lia.
  - cbv zeta; unfold dist; split; Z.to_euclidean_division_equations; lia.
  - now apply decodeOffset_permute.
Qed.

Lemma offset_in_range_witness :
  valid_hand exemplar /\
  exists c1 c2 i hd o low mid high,
    VerifyLogic.findPair (VerifyLogic.suitCounts exemplar) VerifyLogic.SUITS = [c1; c2] /\
    App.findPair (App.suitCounts exemplar) App.SUITS = [c1; c2] /\
    VerifyLogic.orient c1 c2 = (i, hd, o) /\
    App.orient c1 c2 = (i, hd, o) /\
    App.getFitchCheneyArrangement exemplar =
      Ok (mkArrangement i hd (App.permute o low mid high)) /\
    VerifyLogic.getFitchCheneyArrangement exemplar =
      Ok (mkArrangement i hd (VerifyLogic.permute o low mid high)) /\
    1 <= o <= 6 /\
    (let dist1to2 := dist (value c1) (value c2) in
     let dist2to1 := dist (value c2) (value c1) in
     (~ (0 < dist1to2 /\ dist1to2 <= 6) -> 1 <= dist2to1 <= 6) /\
     ((1 <= dist1to2 <= 6 /\ ~ 1 <= dist2to1 <= 6) \/
      (~ 1 <= dist1to2 <= 6 /\ 1 <= dist2to1 <= 6))) /\
    VerifyLogic.decodeOffset (VerifyLogic.permute o low mid high) = Ok o.
Proof.
  split; [exact exemplar_valid | apply (offset_in_range exemplar exemplar_valid)].
Defined.

(** C4 (suit sharing).  For every valid hand the indicator and the hidden
    card of the arrangement the encoder returns have the same suit. *)
Theorem suit_sharing (h : list Card) :
  valid_hand h ->
  exists a,
    App.getFitchCheneyArrangement h = Ok a /\
    VerifyLogic.getFitchCheneyArrangement h = Ok a /\
    suit (indicator a) = suit (hidden a).
Proof.
  intros Hv.
  destruct (encode_valid h Hv) as (c1 & c2 & i & hd & o & l & m & hi & E).
  pose proof (enc_suit _ _ _ _ _ _ _ _ _ E) as Hsuit.
  pose proof (enc_which _ _ _ _ _ _ _ _ _ E) as Hwhich.
  pose proof (enc_result _ _ _ _ _ _ _ _ _ E) as Hres.
  eexists; split; [|split; [exact Hres|]].
  - rewrite App_encoder_size5; [exact Hres | apply Hv].
  - simpl. destruct Hwhich as [[-> ->]|[-> ->]]; congruence.
Qed.

Lemma suit_sharing_witness :
  valid_hand exemplar /\
  exists a,
    App.getFitchCheneyArrangement exemplar = Ok a /\
    VerifyLogic.getFitchCheneyArrangement exemplar = Ok a /\
    suit (indicator a) = suit (hidden a).
Proof.
  split; [exact exemplar_valid | apply (suit_sharing exemplar exemplar_valid)].
Defined.

(** C5, as the specification states it, fails: the hand below has five
    cards, the first two the same card, and the encoder of App.tsx returns an
    arrangement for it (that card as indicator and as hidden card, the offset
    0 taking the default case of the [switch]); the copy of verify_logic.ts
    checks no size either, and returns an arrangement for a hand of six
    cards and for a hand of four. *)
Lemma duplicate_card_accepted :
  nth_error [C3; C3; H2; SK; D7] 0 = nth_error [C3; C3; H2; SK; D7] 1 /\
  App.getFitchCheneyArrangement [C3; C3; H2; SK; D7] =
    Ok (mkArrangement C3 C3 [Some H2; Some D7; Some SK]) /\
  VerifyLogic.getFitchCheneyArrangement [C3; C3; H2; SK; D7] =
    Ok (mkArrangement C3 C3 [Some H2; Some D7; Some SK]) /\
  VerifyLogic.getFitchCheneyArrangement [C3; C9; H2; SK; D7; HA] =
    Ok (mkArrangement HA H2 [Some C3; Some D7; Some C9]) /\
  VerifyLogic.getFitchCheneyArrangement [C3; C9; H2; SK] =
    Ok (mkArrangement C3 C9 [None; Some SK; Some H2]).
Proof. repeat split; reflexivity. Qed.

(** C5, amended.  The encoder of App.tsx fails with its size error on every
    hand whose number of cards is not 5, and returns an arrangement, with no
    error, on every hand of 5 cards, duplicated cards or not. *)
Theorem encoder_errors (h : list Card) :
  (List.length h <> 5%nat /\
   App.getFitchCheneyArrangement h = Throw (Error "Need exactly 5 cards"))
  \/
  (List.length h = 5%nat /\
   exists a, App.getFitchCheneyArrangement h = Ok a).
Proof.
  rewrite App_encoder_unfold.
  destruct (Nat.eqb_spec (List.length h) 5) as [E|N].
  - right; split; [exact E|].
    now apply five_cards_encode.
  - left; split; [exact N | reflexivity].
Qed.

(** C6, as the specification states it, fails: the decoder returns a card,
    with no error, for code cards that include the indicator, for code cards
    with a duplicated card, and for four code cards. *)
Lemma invalid_code_cards_accepted :
  VerifyLogic.decode C3 [Some C3; Some H2; Some D7] =
    Ok (mkCard "predicted" clubs 6 "3") /\
  VerifyLogic.decode C3 [Some H2; Some H2; Some D7] =
    Ok (mkCard "predicted" clubs 4 "3") /\
  VerifyLogic.decode C3 [Some SK; Some D7; Some H2; Some HA] =
    Ok (mkCard "predicted" clubs 3 "3").
Proof. repeat split; reflexivity. Qed.

(** C6, amended.  The decoder checks nothing about its code cards.  Given
    fewer than three it fails with the [TypeError] of reading [.id] from
    [undefined]; given three or more, whatever they are, it fails with no
    error: the order of the first three decodes to an offset [o] from 0 to
    6, and the card returned has the indicator's suit and the value
    [(indicator.value + o - 1) % 13 + 1]. *)
Theorem decode_no_validation (ind : Card) (cc : list Card) :
  ((List.length cc < 3)%nat /\
   VerifyLogic.decode ind (map Some cc) = Throw TypeError)
  \/
  ((3 <= List.length cc)%nat /\
   exists o,
     0 <= o <= 6 /\
     VerifyLogic.decodeOffset (map Some cc) = Ok o /\
     VerifyLogic.decode ind (map Some cc) =
       Ok (mkCard "predicted" (suit ind) (Z.rem (value ind + o - 1) 13 + 1)
                  (displayValue ind))).
Proof.
  destruct (Nat.lt_ge_cases (List.length cc) 3) as [Hlt|Hge].
  - left; split; [exact Hlt|].
    unfold VerifyLogic.decode. now rewrite decodeOffset_short.
  - right; split; [exact Hge|].
    destruct (decodeOffset_total cc Hge) as (o & Ho & Hr).
    exists o; repeat split; try lia; auto using decode_unfold.
Qed.

(** C7 (card key).  The suit priorities are clubs 0, diamonds 1, hearts 2,
    spades 3; the key [(value - 1) * 4 + priority] is the same in the two
    source files; two cards of the same key have the same suit and value, and
    the 52 cards of the deck have 52 different keys; one key is below another
    exactly when the value is lower, or the values are equal and the suit
    priority is lower; and the order of the keys is irreflexive, transitive
    and total on cards that differ in suit or value. *)
Theorem key_strict_total_order :
  (App.SUIT_ORDER clubs = 0 /\ App.SUIT_ORDER diamonds = 1 /\
   App.SUIT_ORDER hearts = 2 /\ App.SUIT_ORDER spades = 3) /\
  (forall c, App.getCardRank c = (value c - 1) * 4 + App.SUIT_ORDER (suit c)) /\
  (forall c, VerifyLogic.getCardRank c = App.getCardRank c) /\
  (forall a b, App.getCardRank a = App.getCardRank b ->
               suit a = suit b /\ value a = value b) /\
  (List.length App.deck = 52%nat /\ NoDup (map App.getCardRank App.deck)) /\
  (forall a b, App.getCardRank a < App.getCardRank b <->
               value a < value b \/
               (value a = value b /\
                App.SUIT_ORDER (suit a) < App.SUIT_ORDER (suit b))) /\
  (forall a, ~ App.getCardRank a < App.getCardRank a) /\
  (forall a b c, App.getCardRank a < App.getCardRank b ->
                 App.getCardRank b < App.getCardRank c ->
                 App.getCardRank a < App.getCardRank c) /\
  (forall a b, face a <> face b ->
               App.getCardRank a < App.getCardRank b \/
               App.getCardRank b < App.getCardRank a).
Proof.
  repeat match goal with |- _ /\ _ => split end; try reflexivity.
  - intros a b E.
    apply (getCardRank_inj a b) in E. inversion E; auto.
  - apply (distinctb_NoDup Z.eqb Z.eqb_eq). vm_compute. reflexivity.
  - intros a b; unfold App.getCardRank.
    pose proof (SUIT_ORDER_range (suit a)); pose proof (SUIT_ORDER_range (suit b)).
    change App.SUIT_ORDER with VerifyLogic.SUIT_ORDER. lia.
  - intros a; lia.
  - intros a b c; lia.
  - intros a b Hne.
    destruct (Z.lt_trichotomy (App.getCardRank a) (App.getCardRank b))
      as [Hlt|[Heq|Hgt]]; auto.
    exfalso; apply Hne. now apply getCardRank_inj.
Qed.

(** C8 (exemplar).  On the hand {Clubs-3, Clubs-9, Hearts-2, Spades-King,
    Diamonds-7} the encoder takes the clubs pair (3, 9); the distances are
    6 from 3 to 9 and 7 from 9 to 3; the indicator is Clubs-3, the hidden
    card Clubs-9 and the offset 6; the remaining cards sort to Hearts-2,
    Diamonds-7, Spades-King and the code cards are (Large, Medium, Small),
    that is Spades-King, Diamonds-7, Hearts-2; and the decoder, given Clubs-3
    and these code cards, returns a card of suit clubs and value 9. *)
Theorem exemplar_run :
  VerifyLogic.findPair (VerifyLogic.suitCounts exemplar) VerifyLogic.SUITS = [C3; C9] /\
  count_of (App.suitCounts exemplar) clubs = [C3; C9] /\
  dist 3 9 = 6 /\ dist 9 3 = 7 /\
  VerifyLogic.orient C3 C9 = (C3, C9, 6) /\
  App.orient C3 C9 = (C3, C9, 6) /\
  JS.sort VerifyLogic.byRank (VerifyLogic.remainingOf exemplar C3 C9) = [H2; D7; SK] /\
  VerifyLogic.getFitchCheneyArrangement exemplar =
    Ok (mkArrangement C3 C9 [Some SK; Some D7; Some H2]) /\
  App.getFitchCheneyArrangement exemplar =
    Ok (mkArrangement C3 C9 [Some SK; Some D7; Some H2]) /\
  VerifyLogic.decodeOffset [Some SK; Some D7; Some H2] = Ok 6 /\
  VerifyLogic.decode C3 [Some SK; Some D7; Some H2] =
    Ok (mkCard "predicted" clubs 9 "3") /\
  suit C9 = clubs /\ value C9 = 9.
Proof. repeat split; reflexivity. Qed.

(** C9 (the two copies).  On every hand of exactly 5 cards -- distinct or
    not -- the encoder of App.tsx and the encoder of verify_logic.ts return
    the same arrangement: same indicator, same hidden card, same code
    cards. *)
Theorem copies_agree (h : list Card) :
  List.length h = 5%nat ->
  App.getFitchCheneyArrangement h = VerifyLogic.getFitchCheneyArrangement h /\
  exists a, VerifyLogic.getFitchCheneyArrangement h = Ok a.
Proof.
  intros Hlen.
  pose proof (App_encoder_size5 h Hlen) as E.
  split; [exact E|].
  exact (five_cards_encode h Hlen).
Qed.

Lemma copies_agree_witness :
  List.length exemplar = 5%nat /\
  App.getFitchCheneyArrangement exemplar = VerifyLogic.getFitchCheneyArrangement exemplar /\
  exists a, VerifyLogic.getFitchCheneyArrangement exemplar = Ok a.
Proof.
  split; [reflexivity | apply (copies_agree exemplar); reflexivity].
Defined.

(** C10, as the specification states it, fails on its own example: three
    code cards with a duplicated card do match one of the six orders of their
    sorted form (here the first, offset 1), and the card the decoder returns
    has not the value of the indicator. *)
Lemma duplicated_cards_match :
  VerifyLogic.decodeOffset [Some H2; Some H2; Some D7] = Ok 1 /\
  exists p,
    VerifyLogic.decode C3 [Some H2; Some H2; Some D7] = Ok p /\
    value p <> value C3.
Proof.
  split; [reflexivity|].
  eexists; split; [reflexivity | discriminate].
Qed.

(** C10, amended.  For every indicator of value 1 to 13 and every array of
    code cards on which none of the six tests of the decoder succeeds, the
    array has more than three cards -- three cards, duplicated or not, always
    pass one of the tests -- and the decoder fails with no error and returns
    a card with the indicator's suit and the indicator's own value, the
    offset being left at 0. *)
Theorem decode_unmatched (ind : Card) (cc : list Card) :
  1 <= value ind <= 13 ->
  VerifyLogic.decodeOffset (map Some cc) = Ok 0 ->
  (3 < List.length cc)%nat /\
  VerifyLogic.decode ind (map Some cc) =
    Ok (mkCard "predicted" (suit ind) (value ind) (displayValue ind)).
Proof.
  intros Hv H0; split.
  - destruct (Nat.lt_ge_cases (List.length cc) 3) as [Hlt|Hge].
    + rewrite (decodeOffset_short cc Hlt) in H0; discriminate.
    + destruct (Nat.eq_dec (List.length cc) 3) as [E|N]; [|lia].
      destruct cc as [|a [|b [|c [|]]]]; try discriminate.
      destruct (decodeOffset_three a b c) as (o & Ho & Hr).
      simpl in H0. rewrite Ho in H0. inversion H0; lia.
  - rewrite (decode_unfold ind _ 0 H0).
    do 2 f_equal. Z.to_euclidean_division_equations; lia.
Qed.

Lemma decode_unmatched_witness :
  1 <= value C3 <= 13 /\
  VerifyLogic.decodeOffset (map Some [SK; D7; H2; HA]) = Ok 0 /\
  (3 < List.length [SK; D7; H2; HA])%nat /\
  VerifyLogic.decode C3 (map Some [SK; D7; H2; HA]) =
    Ok (mkCard "predicted" (suit C3) (value C3) (displayValue C3)).
Proof.
  split; [simpl; lia|].
  split; [reflexivity|].
  apply (decode_unmatched C3 [SK; D7; H2; HA]); [simpl; lia | reflexivity].
Defined.

(** * Beyond the claims: the component [App] *)

(** ** The deck *)

Lemma deck_values : Forall (fun c => 1 <= value c <= 13) App.deck.
Proof. unfold App.deck, App.values; simpl. repeat constructor; simpl; lia. Qed.

Lemma deck_card_form (c : Card) :
  In c App.deck -> c = App.deckCard (suit c) (value c) /\ 1 <= value c <= 13.
Proof.
  intros Hc. unfold App.deck in Hc.
  apply in_flat_map in Hc; destruct Hc as (s & _ & Hc).
  apply in_map_iff in Hc; destruct Hc as (v & <- & Hv).
  split; [reflexivity|].
  unfold App.values in Hv; simpl in Hv; simpl. lia.
Qed.

(** X1.  The deck the component builds has 52 cards; no two have the same
    id, and no two the same suit and value; it holds the card of every suit
    and every value from 1 to 13, and every card of it is such a card. *)
Theorem deck_is_full_deck :
  List.length App.deck = 52%nat /\
  NoDup (map id App.deck) /\
  NoDup (map face App.deck) /\
  (forall s v, 1 <= v <= 13 -> In (App.deckCard s v) App.deck) /\
  (forall c, In c App.deck ->
             c = App.deckCard (suit c) (value c) /\ 1 <= value c <= 13).
Proof.
  split; [reflexivity|].
  split; [exact deck_ids|].
  split; [exact deck_faces|].
  split.
  - intros s v Hv. unfold App.deck.
    apply in_flat_map; exists s; split.
    + destruct s; simpl; tauto.
    + apply in_map.
      assert (Hc : v = 1 \/ v = 2 \/ v = 3 \/ v = 4 \/ v = 5 \/ v = 6 \/ v = 7 \/
                   v = 8 \/ v = 9 \/ v = 10 \/ v = 11 \/ v = 12 \/ v = 13) by lia.
      unfold App.values.
      repeat (destruct Hc as [->|Hc]; [simpl; tauto|]).
      subst v; simpl; tauto.
  - exact deck_card_form.
Qed.

(** X2.  Once the deck is mounted, the visible deck is the thirteen cards of
    the active suit, in the order of their values, Ace to King. *)
Theorem visibleDeck_is_active_suit (s : Ui.State) :
  Ui.deck s = App.deck ->
  Ui.visibleDeck s = map (App.deckCard (Ui.activeSuit s)) App.values /\
  List.length (Ui.visibleDeck s) = 13%nat.
Proof.
  intros E. unfold Ui.visibleDeck. rewrite E.
  destruct (Ui.activeSuit s); split; reflexivity.
Qed.

Lemma visibleDeck_is_active_suit_witness :
  Ui.deck (Ui.initDeck Ui.initial) = App.deck /\
  Ui.visibleDeck (Ui.initDeck Ui.initial)
  = map (App.deckCard (Ui.activeSuit (Ui.initDeck Ui.initial))) App.values /\
  List.length (Ui.visibleDeck (Ui.initDeck Ui.initial)) = 13%nat.
Proof.
  split; [reflexivity|].
  apply (visibleDeck_is_active_suit (Ui.initDeck Ui.initial)); reflexivity.
Defined.

(** ** Picking cards *)

Lemma findById_None (l : list Card) (c : Card) :
  Ui.findById l c = None <-> ~ In (id c) (map id l).
Proof.
  unfold Ui.findById; split.
  - intros Hn Hin. apply in_map_iff in Hin; destruct Hin as (x & Hx & Hxl).
    pose proof (find_none _ _ Hn x Hxl) as Hf; simpl in Hf.
    rewrite Hx, String.eqb_refl in Hf; discriminate.
  - intros Hnin.
    destruct (find _ l) as [x|] eqn:E; [|reflexivity].
    apply find_some in E; destruct E as [Hxl Hx].
    apply String.eqb_eq in Hx.
    exfalso; apply Hnin; rewrite <- Hx; now apply in_map.
Qed.

Lemma filter_other_than_fresh (l : list Card) (c : Card) :
  ~ In (id c) (map id l) -> filter (other_than c) l = l.
Proof.
  intros Hnin; apply filter_all; intros x Hx.
  unfold other_than; apply negb_true_iff, String.eqb_neq; intros E.
  apply Hnin; rewrite <- E; now apply in_map.
Qed.

Lemma NoDup_map_snoc (l : list Card) (c : Card) :
  NoDup (map id l) -> ~ In (id c) (map id l) -> NoDup (map id (l ++ [c])).
Proof.
  intros Hnd Hnin. rewrite map_app; simpl.
  apply NoDup_app; [assumption | repeat constructor; intros [] |].
  intros x Hx [<-|[]]. contradiction.
Qed.

Lemma handleCardClick_hand (s : Ui.State) (c : Card) :
  NoDup (map id (Ui.hand s)) -> (List.length (Ui.hand s) <= 5)%nat ->
  NoDup (map id (Ui.hand (Ui.handleCardClick s c))) /\
  (List.length (Ui.hand (Ui.handleCardClick s c)) <= 5)%nat /\
  incl (Ui.hand (Ui.handleCardClick s c)) (c :: Ui.hand s) /\
  Ui.handleCardClick s c = Ui.setHand s (Ui.hand (Ui.handleCardClick s c)).
Proof.
  intros Hnd Hlen. unfold Ui.handleCardClick.
  destruct s as [dk hd ph act sol rev]; simpl in *.
  destruct ph; simpl;
    try (repeat split; auto; intros x Hx; now right).
  destruct (Ui.findById hd c) eqn:Hf; simpl.
  - repeat split.
    + now apply NoDup_map_filter.
    + pose proof (filter_length_le (fun c0 => negb (String.eqb (id c0) (id c))) hd). lia.
    + intros x Hx; apply filter_In in Hx; right; tauto.
  - destruct (Nat.ltb_spec (List.length hd) 5); simpl.
    + repeat split.
      * apply NoDup_map_snoc; [assumption | now apply findById_None].
      * rewrite length_app; simpl; lia.
      * intros x Hx; apply in_app_or in Hx; simpl in *; tauto.
    + repeat split; auto. intros x Hx; now right.
Qed.

(** X3.  A click on a card keeps the hand without two cards of one id and
    with five cards at most; the cards of the new hand are cards of the old
    one or the card clicked; the deck, the phase and the solution do not
    change. *)
Theorem click_keeps_hand (s : Ui.State) (c : Card) :
  NoDup (map id (Ui.hand s)) -> (List.length (Ui.hand s) <= 5)%nat ->
  NoDup (map id (Ui.hand (Ui.handleCardClick s c))) /\
  (List.length (Ui.hand (Ui.handleCardClick s c)) <= 5)%nat /\
  incl (Ui.hand (Ui.handleCardClick s c)) (c :: Ui.hand s) /\
  Ui.deck (Ui.handleCardClick s c) = Ui.deck s /\
  Ui.phase (Ui.handleCardClick s c) = Ui.phase s /\
  Ui.solution (Ui.handleCardClick s c) = Ui.solution s.
Proof.
  intros Hnd Hlen.
  destruct (handleCardClick_hand s c Hnd Hlen) as (H1 & H2 & H3 & Heq).
  split; [exact H1|]. split; [exact H2|]. split; [exact H3|].
  rewrite Heq; repeat split; reflexivity.
Qed.

Lemma click_keeps_hand_witness :
  NoDup (map id (Ui.hand (Ui.initDeck Ui.initial))) /\
  (List.length (Ui.hand (Ui.initDeck Ui.initial)) <= 5)%nat /\
  NoDup (map id (Ui.hand (Ui.handleCardClick (Ui.initDeck Ui.initial) SK))) /\
  (List.length (Ui.hand (Ui.handleCardClick (Ui.initDeck Ui.initial) SK)) <= 5)%nat /\
  incl (Ui.hand (Ui.handleCardClick (Ui.initDeck Ui.initial) SK))
       (SK :: Ui.hand (Ui.initDeck Ui.initial)) /\
  Ui.deck (Ui.handleCardClick (Ui.initDeck Ui.initial) SK)
  = Ui.deck (Ui.initDeck Ui.initial) /\
  Ui.phase (Ui.handleCardClick (Ui.initDeck Ui.initial) SK)
  = Ui.phase (Ui.initDeck Ui.initial) /\
  Ui.solution (Ui.handleCardClick (Ui.initDeck Ui.initial) SK)
  = Ui.solution (Ui.initDeck Ui.initial).
Proof.
  split; [simpl; constructor|].
  split; [simpl; lia|].
  apply (click_keeps_hand (Ui.initDeck Ui.initial) SK); simpl; [constructor | lia].
Defined.

(** X4.  In the selection phase, with room in the hand, picking a card whose
    id is not in the hand and clicking it again gives back the state. *)
Theorem click_twice_restores (s : Ui.State) (c : Card) :
  Ui.phase s = Ui.selection ->
  Ui.isInHand s c = false ->
  (List.length (Ui.hand s) < 5)%nat ->
  Ui.hand (Ui.handleCardClick s c) = Ui.hand s ++ [c] /\
  Ui.handleCardClick (Ui.handleCardClick s c) c = s.
Proof.
  intros Hph Hin Hlen.
  unfold Ui.isInHand in Hin.
  destruct (Ui.findById (Ui.hand s) c) eqn:Hf; [discriminate|].
  destruct s as [dk hd ph act sol rev]; simpl in *; subst ph.
  assert (E1 : Ui.handleCardClick (Ui.mkState dk hd Ui.selection act sol rev) c
               = Ui.mkState dk (hd ++ [c]) Ui.selection act sol rev).
  { unfold Ui.handleCardClick; simpl. rewrite Hf.
    apply Nat.ltb_lt in Hlen. now rewrite Hlen. }
  rewrite E1; split; [reflexivity|].
  unfold Ui.handleCardClick; simpl.
  assert (Hfound : Ui.findById (hd ++ [c]) c <> None).
  { intros Hn. apply findById_None in Hn. apply Hn.
    rewrite map_app; apply in_or_app; right; now left. }
  destruct (Ui.findById (hd ++ [c]) c); [|contradiction].
  unfold Ui.setHand; simpl. f_equal.
  rewrite filter_app; simpl. rewrite String.eqb_refl; simpl.
  rewrite app_nil_r.
  apply (filter_other_than_fresh hd c). now apply findById_None.
Qed.

Lemma click_twice_restores_witness :
  Ui.phase (Ui.initDeck Ui.initial) = Ui.selection /\
  Ui.isInHand (Ui.initDeck Ui.initial) SK = false /\
  (List.length (Ui.hand (Ui.initDeck Ui.initial)) < 5)%nat /\
  Ui.hand (Ui.handleCardClick (Ui.initDeck Ui.initial) SK)
  = Ui.hand (Ui.initDeck Ui.initial) ++ [SK] /\
  Ui.handleCardClick (Ui.handleCardClick (Ui.initDeck Ui.initial) SK) SK
  = Ui.initDeck Ui.initial.
Proof.
  split; [reflexivity|].
  split; [reflexivity|].
  split; [simpl; lia|].
  apply (click_twice_restores (Ui.initDeck Ui.initial) SK);
    [reflexivity | reflexivity | simpl; lia].
Defined.

(** X5.  In the selection phase, a click on a card of a hand with no shared
    ids and five cards at most removes that card and no other, and a second
    click puts it back at the end: the hand is the same up to order. *)
Theorem unpick_and_pick_again (s : Ui.State) (c : Card) :
  Ui.phase s = Ui.selection ->
  NoDup (map id (Ui.hand s)) ->
  (List.length (Ui.hand s) <= 5)%nat ->
  In c (Ui.hand s) ->
  Permutation (Ui.hand s) (c :: Ui.hand (Ui.handleCardClick s c)) /\
  Ui.isInHand (Ui.handleCardClick s c) c = false /\
  Ui.hand (Ui.handleCardClick (Ui.handleCardClick s c) c)
  = Ui.hand (Ui.handleCardClick s c) ++ [c] /\
  Permutation (Ui.hand (Ui.handleCardClick (Ui.handleCardClick s c) c)) (Ui.hand s).
Proof.
  intros Hph Hnd Hlen Hin.
  destruct s as [dk hd ph act sol rev]; simpl in *; subst ph.
  assert (Hfound : Ui.findById hd c <> None).
  { intros Hn. apply findById_None in Hn. apply Hn. now apply in_map. }
  assert (E1 : Ui.handleCardClick (Ui.mkState dk hd Ui.selection act sol rev) c
               = Ui.mkState dk (filter (other_than c) hd) Ui.selection act sol rev).
  { unfold Ui.handleCardClick; simpl.
    destruct (Ui.findById hd c); [reflexivity | contradiction]. }
  rewrite E1; simpl.
  pose proof (remove_by_id hd c Hnd Hin) as Hp.
  assert (Hfresh : ~ In (id c) (map id (filter (other_than c) hd))).
  { intros Hi. apply in_map_iff in Hi; destruct Hi as (x & Hx & Hxl).
    apply filter_In in Hxl; destruct Hxl as [_ Hxl].
    unfold other_than in Hxl. rewrite Hx, String.eqb_refl in Hxl. discriminate. }
  assert (Hnone : Ui.findById (filter (other_than c) hd) c = None)
    by now apply findById_None.
  assert (Hlen' : (List.length (filter (other_than c) hd) < 5)%nat).
  { apply Permutation_length in Hp; simpl in Hp. lia. }
  assert (E2 : Ui.hand (Ui.handleCardClick
                 (Ui.mkState dk (filter (other_than c) hd) Ui.selection act sol rev) c)
               = filter (other_than c) hd ++ [c]).
  { unfold Ui.handleCardClick; simpl. rewrite Hnone.
    apply Nat.ltb_lt in Hlen'. now rewrite Hlen'. }
  split; [exact Hp|].
  split; [unfold Ui.isInHand; simpl; now rewrite Hnone|].
  split; [exact E2|].
  rewrite E2. apply Permutation_sym.
  apply perm_trans with (1 := Hp). apply Permutation_cons_append.
Qed.

Lemma unpick_and_pick_again_witness :
  Ui.phase (Ui.handleCardClick (Ui.initDeck Ui.initial) SK) = Ui.selection /\
  NoDup (map id (Ui.hand (Ui.handleCardClick (Ui.initDeck Ui.initial) SK))) /\
  (List.length (Ui.hand (Ui.handleCardClick (Ui.initDeck Ui.initial) SK)) <= 5)%nat /\
  In SK (Ui.hand (Ui.handleCardClick (Ui.initDeck Ui.initial) SK)) /\
  Permutation
    (Ui.hand (Ui.handleCardClick (Ui.initDeck Ui.initial) SK))
    (SK :: Ui.hand (Ui.handleCardClick
                      (Ui.handleCardClick (Ui.initDeck Ui.initial) SK) SK)) /\
  Ui.isInHand (Ui.handleCardClick
                 (Ui.handleCardClick (Ui.initDeck Ui.initial) SK) SK) SK = false /\
  Ui.hand (Ui.handleCardClick
             (Ui.handleCardClick
                (Ui.handleCardClick (Ui.initDeck Ui.initial) SK) SK) SK)
  = Ui.hand (Ui.handleCardClick
               (Ui.handleCardClick (Ui.initDeck Ui.initial) SK) SK) ++ [SK] /\
  Permutation
    (Ui.hand (Ui.handleCardClick
                (Ui.handleCardClick
                   (Ui.handleCardClick (Ui.initDeck Ui.initial) SK) SK) SK))
    (Ui.hand (Ui.handleCardClick (Ui.initDeck Ui.initial) SK)).
Proof.
  split; [reflexivity|].
  split; [simpl; repeat constructor; simpl; tauto|].
  split; [simpl; lia|].
  split; [simpl; tauto|].
  apply (unpick_and_pick_again (Ui.handleCardClick (Ui.initDeck Ui.initial) SK) SK);
    [reflexivity | simpl; repeat constructor; simpl; tauto | simpl; lia | simpl; tauto].
Defined.

(** ** Performing the trick *)

Lemma performMagic_cases (s : Ui.State) :
  (List.length (Ui.hand s) <> 5%nat /\ Ui.performMagic s = Ok s) \/
  (List.length (Ui.hand s) = 5%nat /\
   exists a, App.getFitchCheneyArrangement (Ui.hand s) = Ok a /\
             Ui.performMagic s
             = Ok (Ui.mkState (Ui.deck s) (Ui.hand s) Ui.stage (Ui.activeSuit s)
                              (Some a) (Ui.isHiddenRevealed s))).
Proof.
  unfold Ui.performMagic.
  destruct (Nat.eqb_spec (List.length (Ui.hand s)) 5) as [E|N]; simpl.
  - right; split; [exact E|].
    destruct (five_cards_encode (Ui.hand s) E) as [a Ha].
    rewrite <- (App_encoder_size5 _ E) in Ha.
    exists a; split; [exact Ha|]. now rewrite Ha.
  - now left.
Qed.

(** X6.  [performMagic] never throws.  On a hand that has not five cards it
    changes nothing; on a hand of five cards, whatever they are, it keeps the
    hand, moves to the stage phase and stores the arrangement the encoder
    returns for the hand. *)
Theorem performMagic_never_throws (s : Ui.State) :
  exists s',
    Ui.performMagic s = Ok s' /\
    Ui.hand s' = Ui.hand s /\ Ui.deck s' = Ui.deck s /\
    ((List.length (Ui.hand s) <> 5%nat /\ s' = s) \/
     (List.length (Ui.hand s) = 5%nat /\ Ui.phase s' = Ui.stage /\
      exists a, Ui.solution s' = Some a /\
                App.getFitchCheneyArrangement (Ui.hand s) = Ok a)).
Proof.
  destruct (performMagic_cases s) as [[N E]|(L & a & Ha & E)]; rewrite E.
  - exists s; repeat split. now left.
  - eexists; split; [reflexivity|]; simpl.
    repeat split. right. repeat split; auto. now exists a.
Qed.

(** ** The states of the component *)










(** * Beyond the claims: the encoder and the decoder on any input *)

(** ** Which pair the encoder takes *)

Lemma findPair_first (sc : SuitCounts) (suits : list Suit) :
  (VerifyLogic.findPair sc suits = [] /\
   Forall (fun s => (List.length (count_of sc s) < 2)%nat) suits)
  \/ exists before s after c1 c2 rest,
       suits = before ++ s :: after /\
       Forall (fun t => (List.length (count_of sc t) < 2)%nat) before /\
       count_of sc s = c1 :: c2 :: rest /\
       VerifyLogic.findPair sc suits = [c1; c2].
Proof.
  induction suits as [|s suits IH]; cbn [VerifyLogic.findPair].
  - left; split; [reflexivity | constructor].
  - destruct (Nat.leb_spec 2 (List.length (count_of sc s))) as [Hge|Hlt].
    + right.
      destruct (count_of sc s) as [|c1 [|c2 rest]] eqn:E; simpl in Hge; try lia.
      exists [], s, suits, c1, c2, rest; repeat split; auto.
    + destruct IH as [[E F]|(before & s' & after & c1 & c2 & rest & Hs & Hb & Hc & E)].
      * left; split; [exact E | now constructor].
      * right; exists (s :: before), s', after, c1, c2, rest.
        repeat split; auto. simpl; now rewrite Hs.
Qed.

(** X9.  With no suit held twice -- the empty hand, a hand of one card, four
    cards of four suits -- the encoder of verify_logic.ts fails with a
    [TypeError]; with a suit held twice, whatever the size of the hand, it
    returns an arrangement. *)
Theorem encoder_needs_a_pair (h : list Card) :
  (VerifyLogic.getFitchCheneyArrangement h = Throw TypeError /\
   forall s, (List.length (count_of (VerifyLogic.suitCounts h) s) < 2)%nat)
  \/
  (exists a s,
     VerifyLogic.getFitchCheneyArrangement h = Ok a /\
     (2 <= List.length (count_of (VerifyLogic.suitCounts h) s))%nat).
Proof.
  unfold VerifyLogic.getFitchCheneyArrangement.
  destruct (findPair_spec (VerifyLogic.suitCounts h) VerifyLogic.SUITS)
    as [[E F]|(s & c1 & c2 & rest & _ & Hc & E)].
  - left; rewrite E; split; [reflexivity|].
    intros s. rewrite Forall_forall in F. apply F.
    destruct s; simpl; tauto.
  - right; rewrite E.
    destruct (VerifyLogic.orient c1 c2) as [[i hd] o].
    eexists; exists s; split; [reflexivity|].
    rewrite Hc; simpl; lia.
Qed.

(** X10.  The pair of an arrangement is the first two cards, in the order of
    the hand, of the first suit held twice in the order spades, hearts,
    clubs, diamonds: no suit before it in that order is held twice. *)
Theorem pair_of_first_suit (h : list Card) (a : Arrangement) :
  VerifyLogic.getFitchCheneyArrangement h = Ok a ->
  exists before s after c1 c2 rest,
    [spades; hearts; clubs; diamonds] = before ++ s :: after /\
    Forall (fun t => (List.length (filter (of_suit t) h) < 2)%nat) before /\
    filter (of_suit s) h = c1 :: c2 :: rest /\
    ((indicator a = c1 /\ hidden a = c2) \/ (indicator a = c2 /\ hidden a = c1)).
Proof.
  unfold VerifyLogic.getFitchCheneyArrangement.
  destruct (findPair_first (VerifyLogic.suitCounts h) VerifyLogic.SUITS)
    as [[E F]|(before & s & after & c1 & c2 & rest & Hs & Hb & Hc & E)];
    rewrite E; [discriminate|].
  intros Ha.
  exists before, s, after, c1, c2, rest.
  rewrite suitCounts_filter in Hc.
  repeat split; auto.
  - rewrite Forall_forall in *. intros t Ht.
    rewrite <- suitCounts_filter. now apply Hb.
  - unfold VerifyLogic.orient in Ha.
    destruct ((0 <? _) && _) in Ha; inversion Ha; simpl; auto.
Qed.

Lemma pair_of_first_suit_witness :
  VerifyLogic.getFitchCheneyArrangement exemplar
  = Ok (mkArrangement C3 C9 [Some SK; Some D7; Some H2]) /\
  exists before s after c1 c2 rest,
    [spades; hearts; clubs; diamonds] = before ++ s :: after /\
    Forall (fun t => (List.length (filter (of_suit t) exemplar) < 2)%nat) before /\
    filter (of_suit s) exemplar = c1 :: c2 :: rest /\
    ((indicator (mkArrangement C3 C9 [Some SK; Some D7; Some H2]) = c1 /\
      hidden (mkArrangement C3 C9 [Some SK; Some D7; Some H2]) = c2) \/
     (indicator (mkArrangement C3 C9 [Some SK; Some D7; Some H2]) = c2 /\
      hidden (mkArrangement C3 C9 [Some SK; Some D7; Some H2]) = c1)).
Proof.
  split; [reflexivity|].
  apply (pair_of_first_suit exemplar (mkArrangement C3 C9 [Some SK; Some D7; Some H2])).
  reflexivity.
Defined.

(** X11.  Which card of the pair comes first in the hand does not matter:
    for two cards of different values from 1 to 13, the indicator, the hidden
    card and the offset are the same for the pair taken in either order. *)
Theorem orient_symmetric (c1 c2 : Card) :
  1 <= value c1 <= 13 -> 1 <= value c2 <= 13 -> value c1 <> value c2 ->
  VerifyLogic.orient c1 c2 = VerifyLogic.orient c2 c1 /\
  App.orient c1 c2 = App.orient c2 c1.
Proof.
  intros H1 H2 Hne.
  assert (E : VerifyLogic.orient c1 c2 = VerifyLogic.orient c2 c1); [|split; exact E].
  unfold VerifyLogic.orient.
  destruct (Z.ltb_spec 0 (Z.rem (value c2 - value c1 + 13) 13));
    destruct (Z.leb_spec (Z.rem (value c2 - value c1 + 13) 13) 6);
    destruct (Z.ltb_spec 0 (Z.rem (value c1 - value c2 + 13) 13));
    destruct (Z.leb_spec (Z.rem (value c1 - value c2 + 13) 13) 6);
    simpl; try reflexivity; exfalso;
    Z.to_euclidean_division_equations; lia.
Qed.

Lemma orient_symmetric_witness :
  1 <= value C3 <= 13 /\ 1 <= value C9 <= 13 /\ value C3 <> value C9 /\
  VerifyLogic.orient C3 C9 = VerifyLogic.orient C9 C3 /\
  App.orient C3 C9 = App.orient C9 C3.
Proof.
  split; [simpl; lia|].
  split; [simpl; lia|].
  split; [simpl; lia|].
  apply (orient_symmetric C3 C9); simpl; lia.
Defined.

(** ** The code cards *)

Lemma at_In (l : list Card) (n : nat) (c : Card) :
  JS.at_ l n = Some c -> In c l.
Proof. unfold JS.at_; apply nth_error_In. Qed.

Lemma codeCards_length (h : list Card) (a : Arrangement) :
  VerifyLogic.getFitchCheneyArrangement h = Ok a ->
  List.length (codeCards a) = 3%nat.
Proof.
  unfold VerifyLogic.getFitchCheneyArrangement.
  destruct (VerifyLogic.findPair _ _) as [|c1 [|c2 r]]; try discriminate.
  destruct (VerifyLogic.orient c1 c2) as [[i hd] o].
  intros Ha; inversion Ha; subst a; clear Ha.
  apply (Permutation_length (permute_perm o _ _ _)).
Qed.

(** X12.  On any hand for which the encoder returns, the code cards are
    three slots, and every card among them is a card of the hand whose id is
    neither the indicator's nor the hidden card's. *)
Theorem code_cards_exclude_pair (h : list Card) (a : Arrangement) :
  VerifyLogic.getFitchCheneyArrangement h = Ok a ->
  List.length (codeCards a) = 3%nat /\
  forall c, In (Some c) (codeCards a) ->
            In c h /\ id c <> id (indicator a) /\ id c <> id (hidden a).
Proof.
  unfold VerifyLogic.getFitchCheneyArrangement.
  destruct (VerifyLogic.findPair _ _) as [|c1 [|c2 r]]; try discriminate.
  destruct (VerifyLogic.orient c1 c2) as [[i hd] o].
  intros Ha; inversion Ha; subst a; clear Ha.
  cbn [codeCards indicator hidden].
  split.
  - apply (Permutation_length (permute_perm o _ _ _)).
  - intros c Hc.
    apply (Permutation_in _ (permute_perm o _ _ _)) in Hc.
    assert (Hs : In c (JS.sort VerifyLogic.byRank (VerifyLogic.remainingOf h i hd))).
    { destruct Hc as [Hc|[Hc|[Hc|[]]]];
        [apply (at_In _ 0%nat) | apply (at_In _ 1%nat) | apply (at_In _ 2%nat)];
        exact Hc. }
    apply (Permutation_in _ (sort_perm _ _)) in Hs.
    unfold VerifyLogic.remainingOf in Hs.
    apply filter_In in Hs; destruct Hs as [Hin Hf].
    apply andb_true_iff in Hf; destruct Hf as [F1 F2].
    apply negb_true_iff, String.eqb_neq in F1, F2. auto.
Qed.

Lemma code_cards_exclude_pair_witness :
  VerifyLogic.getFitchCheneyArrangement [C3; C3; H2; SK; D7]
  = Ok (mkArrangement C3 C3 [Some H2; Some D7; Some SK]) /\
  List.length (codeCards (mkArrangement C3 C3 [Some H2; Some D7; Some SK])) = 3%nat /\
  forall c, In (Some c) (codeCards (mkArrangement C3 C3 [Some H2; Some D7; Some SK])) ->
            In c [C3; C3; H2; SK; D7] /\
            id c <> id (indicator (mkArrangement C3 C3 [Some H2; Some D7; Some SK])) /\
            id c <> id (hidden (mkArrangement C3 C3 [Some H2; Some D7; Some SK])).
Proof.
  split; [reflexivity|].
  apply (code_cards_exclude_pair [C3; C3; H2; SK; D7]
           (mkArrangement C3 C3 [Some H2; Some D7; Some SK])).
  reflexivity.
Defined.

(** X13.  The table of the [switch] and the tests of the decoder are inverse
    of each other: for three cards of increasing keys and different ids, the
    decoder recovers every offset from 1 to 6 from the order the encoder
    gives them, and two different offsets give two different orders. *)
Theorem permutation_table_inverse (l m h : Card) (o o' : Z) :
  VerifyLogic.getCardRank l < VerifyLogic.getCardRank m ->
  VerifyLogic.getCardRank m < VerifyLogic.getCardRank h ->
  id l <> id m -> id l <> id h -> id m <> id h ->
  1 <= o <= 6 -> 1 <= o' <= 6 ->
  VerifyLogic.decodeOffset (VerifyLogic.permute o (Some l) (Some m) (Some h)) = Ok o /\
  App.permute o (Some l) (Some m) (Some h)
  = VerifyLogic.permute o (Some l) (Some m) (Some h) /\
  (VerifyLogic.permute o (Some l) (Some m) (Some h)
   = VerifyLogic.permute o' (Some l) (Some m) (Some h) -> o = o').
Proof.
  intros Hlm Hmh I1 I2 I3 Ho Ho'.
  pose proof (decodeOffset_permute o l m h Hlm Hmh I1 I2 I3 Ho) as E.
  pose proof (decodeOffset_permute o' l m h Hlm Hmh I1 I2 I3 Ho') as E'.
  split; [exact E|]. split; [reflexivity|].
  intros Hp. rewrite Hp in E. congruence.
Qed.

Lemma permutation_table_inverse_witness :
  VerifyLogic.getCardRank H2 < VerifyLogic.getCardRank D7 /\
  VerifyLogic.getCardRank D7 < VerifyLogic.getCardRank SK /\
  id H2 <> id D7 /\ id H2 <> id SK /\ id D7 <> id SK /\
  1 <= 4 <= 6 /\ 1 <= 5 <= 6 /\
  VerifyLogic.decodeOffset (VerifyLogic.permute 4 (Some H2) (Some D7) (Some SK)) = Ok 4 /\
  App.permute 4 (Some H2) (Some D7) (Some SK)
  = VerifyLogic.permute 4 (Some H2) (Some D7) (Some SK) /\
  (VerifyLogic.permute 4 (Some H2) (Some D7) (Some SK)
   = VerifyLogic.permute 5 (Some H2) (Some D7) (Some SK) -> 4 = 5).
Proof.
  split; [vm_compute; reflexivity|].
  split; [vm_compute; reflexivity|].
  split; [discriminate|].
  split; [discriminate|].
  split; [discriminate|].
  split; [lia|].
  split; [lia|].
  apply (permutation_table_inverse H2 D7 SK 4 5);
    first [vm_compute; reflexivity | discriminate | lia].
Defined.

(** ** The card the decoder returns *)

(** X14.  Given an indicator of value 1 to 13 and three code cards or more,
    whatever they are, the decoder returns a card of the indicator's suit
    whose value is again from 1 to 13, at most 6 steps clockwise from the
    indicator's. *)
Theorem decoded_card_in_range (ind : Card) (cc : list Card) :
  1 <= value ind <= 13 -> (3 <= List.length cc)%nat ->
  exists p,
    VerifyLogic.decode ind (map Some cc) = Ok p /\
    suit p = suit ind /\
    1 <= value p <= 13 /\
    0 <= dist (value ind) (value p) <= 6 /\
    VerifyLogic.decodeOffset (map Some cc) = Ok (dist (value ind) (value p)).
Proof.
  intros Hv Hlen.
  destruct (decodeOffset_total cc Hlen) as (o & Ho & Hr).
  rewrite (decode_unfold ind _ o Ho).
  eexists; split; [reflexivity|]; simpl.
  assert (E : dist (value ind) (Z.rem (value ind + o - 1) 13 + 1) = o).
  { unfold dist. Z.to_euclidean_division_equations; lia. }
  rewrite E. repeat split; auto; try lia;
    Z.to_euclidean_division_equations; lia.
Qed.

Lemma decoded_card_in_range_witness :
  1 <= value C3 <= 13 /\ (3 <= List.length [C3; H2; D7; HA])%nat /\
  exists p,
    VerifyLogic.decode C3 (map Some [C3; H2; D7; HA]) = Ok p /\
    suit p = suit C3 /\
    1 <= value p <= 13 /\
    0 <= dist (value C3) (value p) <= 6 /\
    VerifyLogic.decodeOffset (map Some [C3; H2; D7; HA]) = Ok (dist (value C3) (value p)).
Proof.
  split; [simpl; lia|].
  split; [simpl; lia|].
  apply (decoded_card_in_range C3 [C3; H2; D7; HA]); simpl; lia.
Defined.

Lemma deck_id_not_predicted (c : Card) : In c App.deck -> id c <> "predicted"%string.
Proof.
  intros Hc.
  destruct (deck_card_form c Hc) as [E _]. rewrite E.
  unfold App.deckCard; simpl. destruct (suit c); simpl; discriminate.
Qed.

Lemma displayValueOf_inj (v w : Z) :
  1 <= v <= 13 -> 1 <= w <= 13 ->
  App.displayValueOf v = App.displayValueOf w -> v = w.
Proof.
  intros Hv Hw.
  assert (Cv : v = 1 \/ v = 2 \/ v = 3 \/ v = 4 \/ v = 5 \/ v = 6 \/ v = 7 \/
               v = 8 \/ v = 9 \/ v = 10 \/ v = 11 \/ v = 12 \/ v = 13) by lia.
  assert (Cw : w = 1 \/ w = 2 \/ w = 3 \/ w = 4 \/ w = 5 \/ w = 6 \/ w = 7 \/
               w = 8 \/ w = 9 \/ w = 10 \/ w = 11 \/ w = 12 \/ w = 13) by lia.
  repeat (destruct Cv as [->|Cv]);
    repeat (destruct Cw as [->|Cw]); subst;
    intros E; try reflexivity; vm_compute in E; discriminate.
Qed.

(** The round trip, for the copy of verify_logic.ts. *)
Lemma decode_encoded (h : list Card) :
  valid_hand h ->
  exists a p,
    VerifyLogic.getFitchCheneyArrangement h = Ok a /\
    In (indicator a) h /\ In (hidden a) h /\
    value (indicator a) <> value (hidden a) /\
    VerifyLogic.decode (indicator a) (codeCards a) = Ok p /\
    p = mkCard "predicted" (suit (indicator a)) (value (hidden a))
               (displayValue (indicator a)) /\
    suit p = suit (hidden a).
Proof.
  intros Hv.
  destruct (encode_valid h Hv) as (c1 & c2 & i & hd & o & l & m & hi & E).
  destruct E as [_ Hsuit (_ & _ & Vne) _ Hwhich _ Ho Hclock _ [Hlm Hmh] (I1 & I2 & I3) Hperm Hres].
  assert (Hi : In i h) by (apply (Permutation_in _ (Permutation_sym Hperm)); simpl; tauto).
  assert (Hh : In hd h) by (apply (Permutation_in _ (Permutation_sym Hperm)); simpl; tauto).
  exists (mkArrangement i hd (VerifyLogic.permute o (Some l) (Some m) (Some hi))).
  eexists; simpl.
  split; [exact Hres|]. split; [exact Hi|]. split; [exact Hh|].
  split; [destruct Hwhich as [[-> ->]|[-> ->]]; congruence|].
  split; [apply decode_unfold; now apply decodeOffset_permute|].
  rewrite Hclock. split; [reflexivity|]; simpl.
  destruct Hwhich as [[-> ->]|[-> ->]]; congruence.
Qed.

(** X15.  The card the decoder returns is a new card, not the hidden card
    itself: for five different cards of the deck, it has the suit and the
    value of the hidden card, but the id ["predicted"], which no card of the
    deck has, and the display value of the indicator, which is not the
    hidden card's. *)
Theorem decoded_card_is_not_the_hidden_one (h : list Card) :
  incl h App.deck -> NoDup h -> List.length h = 5%nat ->
  exists a p,
    App.getFitchCheneyArrangement h = Ok a /\
    VerifyLogic.decode (indicator a) (codeCards a) = Ok p /\
    suit p = suit (hidden a) /\ value p = value (hidden a) /\
    id p = "predicted"%string /\ id p <> id (hidden a) /\
    displayValue p = displayValue (indicator a) /\
    displayValue p <> displayValue (hidden a).
Proof.
  intros Hsub Hnd Hlen.
  pose proof (deck_hand_valid h Hsub Hnd Hlen) as Hv.
  destruct (decode_encoded h Hv) as (a & p & Ha & Hi & Hh & Hne & Hd & Hp & Hs).
  exists a, p.
  rewrite (App_encoder_size5 h Hlen).
  subst p; simpl in *.
  repeat split; auto.
  - intros E; symmetry in E; revert E. apply deck_id_not_predicted. now apply Hsub.
  - intros E; apply Hne.
    destruct (deck_card_form _ (Hsub _ Hi)) as [Ei Ri].
    destruct (deck_card_form _ (Hsub _ Hh)) as [Eh Rh].
    rewrite Ei, Eh in E; simpl in E.
    now apply displayValueOf_inj.
Qed.

Lemma decoded_card_is_not_the_hidden_one_witness :
  incl exemplar App.deck /\ NoDup exemplar /\ List.length exemplar = 5%nat /\
  exists a p,
    App.getFitchCheneyArrangement exemplar = Ok a /\
    VerifyLogic.decode (indicator a) (codeCards a) = Ok p /\
    suit p = suit (hidden a) /\ value p = value (hidden a) /\
    id p = "predicted"%string /\ id p <> id (hidden a) /\
    displayValue p = displayValue (indicator a) /\
    displayValue p <> displayValue (hidden a).
Proof.
  assert (Hi : incl exemplar App.deck).
  { intros c Hc; simpl in Hc.
    repeat (destruct Hc as [<-|Hc]; [vm_compute; tauto|]). destruct Hc. }
  assert (Hn : NoDup exemplar).
  { apply NoDup_map_inv with (f := id).
    apply (distinctb_NoDup String.eqb String.eqb_eq); reflexivity. }
  split; [exact Hi|].
  split; [exact Hn|].
  split; [reflexivity|].
  apply (decoded_card_is_not_the_hidden_one exemplar Hi Hn); reflexivity.
Defined.

(** * Beyond the claims: the test run of verify_logic.ts *)

(** ** The cards drawn *)

Lemma Suit_eqb_sym (a b : Suit) : Suit_eqb a b = Suit_eqb b a.
Proof. destruct a, b; reflexivity. Qed.

Lemma findByFace_existsb (hand : list Card) (c : Card) :
  Script.findByFace hand c = None <->
  existsb (face_eqb (face c)) (map face hand) = false.
Proof.
  unfold Script.findByFace.
  induction hand as [|x hand IH]; simpl; [tauto|].
  unfold face_eqb at 1; simpl.
  rewrite (Suit_eqb_sym (suit c)), (Z.eqb_sym (value c)).
  destruct (Suit_eqb (suit x) (suit c) && (value x =? value c)); simpl.
  - split; discriminate.
  - exact IH.
Qed.

Lemma existsb_face (f : Suit * Z) (l : list (Suit * Z)) :
  existsb (face_eqb f) l = true <-> In f l.
Proof.
  rewrite existsb_exists; split.
  - intros (x & Hx & E). apply face_eqb_eq in E. now subst.
  - intros H; exists f; split; [assumption | now apply face_eqb_eq].
Qed.

Lemma findByFace_None (hand : list Card) (c : Card) :
  Script.findByFace hand c = None <-> ~ In (face c) (map face hand).
Proof.
  rewrite findByFace_existsb, <- existsb_face.
  destruct (existsb _ _); split; congruence.
Qed.

Lemma decimal_dash_inj (v w : Z) (x y : string) :
  1 <= v <= 13 -> 1 <= w <= 13 ->
  (Script.decimal v ++ "-" ++ x = Script.decimal w ++ "-" ++ y)%string -> v = w.
Proof.
  intros Hv Hw.
  assert (Cv : v = 1 \/ v = 2 \/ v = 3 \/ v = 4 \/ v = 5 \/ v = 6 \/ v = 7 \/
               v = 8 \/ v = 9 \/ v = 10 \/ v = 11 \/ v = 12 \/ v = 13) by lia.
  assert (Cw : w = 1 \/ w = 2 \/ w = 3 \/ w = 4 \/ w = 5 \/ w = 6 \/ w = 7 \/
               w = 8 \/ w = 9 \/ w = 10 \/ w = 11 \/ w = 12 \/ w = 13) by lia.
  repeat (destruct Cv as [->|Cv]);
    repeat (destruct Cw as [->|Cw]); subst;
    intros E; try reflexivity; exfalso;
    simpl in E; congruence.
Qed.

(** The id of a card of the script tells its suit and value. *)
Lemma script_id_face (c c' : Card) :
  script_card c -> script_card c' -> id c = id c' -> face c = face c'.
Proof.
  intros (Hv & n & E) (Hv' & n' & E') Hid.
  rewrite E, E' in Hid. unfold face.
  assert (Hs : suit c = suit c').
  { destruct (suit c), (suit c'); simpl in Hid; try reflexivity; discriminate. }
  rewrite Hs in Hid |- *. f_equal.
  apply (decimal_dash_inj _ _ (Script.decimal n) (Script.decimal n') Hv Hv').
  destruct (suit c'); cbn [Suit_name String.append] in Hid |- *; congruence.
Qed.

Lemma randomCard_script_card (d : Script.Draw) (n : Z) :
  draw_in_range d ->
  script_card (fst (Script.randomCard d n)) /\
  face (fst (Script.randomCard d n)) = draw_face d /\
  snd (Script.randomCard d n) = n + 1.
Proof.
  intros Hd; unfold Script.randomCard, script_card; simpl.
  repeat split; try apply Hd. now exists n.
Qed.

Lemma NoDup_map_finer {A B C : Type} (f : A -> B) (g : A -> C) (l : list A) :
  (forall x y, In x l -> In y l -> g x = g y -> f x = f y) ->
  NoDup (map f l) -> NoDup (map g l).
Proof.
  induction l as [|a l IH]; simpl; intros Hfg Hnd; [constructor|].
  inversion Hnd as [|? ? Hnin Hnd']; subst.
  constructor.
  - intros Hin. apply in_map_iff in Hin; destruct Hin as (x & Hx & Hxl).
    apply Hnin. rewrite <- (Hfg x a); auto. now apply in_map.
  - apply IH; auto.
Qed.

(** Cards of the script with different faces make a valid hand. *)
Lemma script_hand_valid (h : list Card) :
  Forall script_card h -> NoDup (map face h) -> List.length h = 5%nat ->
  valid_hand h.
Proof.
  intros Hsc Hnd Hlen; constructor; auto.
  - apply Forall_impl with (2 := Hsc). intros c [Hv _]; exact Hv.
  - apply (NoDup_map_finer face id); auto.
    rewrite Forall_forall in Hsc.
    intros x y Hx Hy. apply script_id_face; auto.
Qed.

(** ** Generating a hand *)

Lemma generateHandFrom_spec (draws : list Script.Draw) :
  forall (hand : list Card) (n : Z) (h : list Card) (n' : Z) (rest : list Script.Draw),
    Forall draw_in_range draws ->
    Forall script_card hand -> NoDup (map face hand) ->
    (List.length hand <= 5)%nat ->
    Script.generateHandFrom draws hand n = Some (h, n', rest) ->
    Forall script_card h /\ NoDup (map face h) /\ List.length h = 5%nat /\
    exists used, draws = used ++ rest /\ n' = n + Z.of_nat (List.length used).
Proof.
  induction draws as [|d draws IH]; intros hand n h n' rest Hr Hsc Hnd Hlen;
    cbn [Script.generateHandFrom].
  - destruct (Nat.ltb_spec (List.length hand) 5); [discriminate|].
    intros E; inversion E; subst.
    repeat split; auto; try lia. exists []; split; [reflexivity | simpl; lia].
  - inversion Hr as [|? ? Hd Hr']; subst.
    destruct (Nat.ltb_spec (List.length hand) 5) as [Hlt|Hge].
    + destruct (randomCard_script_card d n Hd) as (Hc & Hf & Hn).
      destruct (Script.randomCard d n) as [c n1]; simpl in Hc, Hf, Hn; subst n1.
      destruct (Script.findByFace hand c) eqn:Hfind; intros E.
      * destruct (IH hand (n + 1) h n' rest Hr' Hsc Hnd Hlen E)
          as (H1 & H2 & H3 & used & Hu & Hn').
        repeat split; auto.
        exists (d :: used); split; [simpl; congruence | simpl List.length; lia].
      * assert (Hsc' : Forall script_card (hand ++ [c])).
        { apply Forall_app; split; auto. }
        assert (Hnd' : NoDup (map face (hand ++ [c]))).
        { rewrite map_app; simpl. apply NoDup_app; auto.
          - repeat constructor; intros [].
          - intros x Hx [<-|[]]. apply findByFace_None in Hfind. contradiction. }
        assert (Hlen' : (List.length (hand ++ [c]) <= 5)%nat).
        { rewrite length_app; simpl; lia. }
        destruct (IH (hand ++ [c]) (n + 1) h n' rest Hr' Hsc' Hnd' Hlen' E)
          as (H1 & H2 & H3 & used & Hu & Hn').
        repeat split; auto.
        exists (d :: used); split; [simpl; congruence | simpl List.length; lia].
    + intros E; inversion E; subst.
      repeat split; auto; try lia. exists []; split; [reflexivity | simpl; lia].
Qed.

Lemma generateHand_hand (draws : list Script.Draw) (n : Z)
      (h : list Card) (n' : Z) (rest : list Script.Draw) :
  Forall draw_in_range draws ->
  Script.generateHand draws n = Some (h, n', rest) ->
  valid_hand h /\ Forall draw_in_range rest.
Proof.
  intros Hr E.
  assert (Hn : NoDup (map face (@nil Card))) by constructor.
  assert (Hl : (List.length (@nil Card) <= 5)%nat) by (simpl; lia).
  destruct (generateHandFrom_spec draws [] n h n' rest Hr (Forall_nil _) Hn Hl E)
    as (H1 & H2 & H3 & used & Hu & _).
  split; [now apply script_hand_valid|].
  rewrite Hu in Hr. apply Forall_app in Hr. tauto.
Qed.

(** X16.  When [generateHand] returns, with draws of values 1 to 13, the
    hand is a valid hand (five cards of different faces and different ids),
    and the counter has advanced by the number of draws used. *)
Theorem generateHand_valid (draws : list Script.Draw) (n : Z)
        (h : list Card) (n' : Z) (rest : list Script.Draw) :
  Forall draw_in_range draws ->
  Script.generateHand draws n = Some (h, n', rest) ->
  valid_hand h /\
  exists used, draws = used ++ rest /\ n' = n + Z.of_nat (List.length used).
Proof.
  intros Hr E.
  assert (Hn : NoDup (map face (@nil Card))) by constructor.
  assert (Hl : (List.length (@nil Card) <= 5)%nat) by (simpl; lia).
  destruct (generateHandFrom_spec draws [] n h n' rest Hr (Forall_nil _) Hn Hl E)
    as (H1 & H2 & H3 & H4).
  split; [now apply script_hand_valid | exact H4].
Qed.

Lemma demo_block_in_range : Forall draw_in_range demo_block.
Proof. repeat constructor; unfold draw_in_range; simpl; lia. Qed.

Lemma generateHand_valid_witness :
  Forall draw_in_range (demo_block ++ demo_block) /\
  Script.generateHand (demo_block ++ demo_block) 0
  = Some (demo_script_hand, 5, demo_block) /\
  valid_hand demo_script_hand /\
  exists used, demo_block ++ demo_block = used ++ demo_block /\
               5 = 0 + Z.of_nat (List.length used).
Proof.
  assert (Hr : Forall draw_in_range (demo_block ++ demo_block)).
  { apply Forall_app; split; exact demo_block_in_range. }
  split; [exact Hr|].
  split; [reflexivity|].
  apply (generateHand_valid (demo_block ++ demo_block) 0 _ 5 demo_block Hr).
  reflexivity.
Defined.

Lemma generateHandFrom_None (draws : list Script.Draw) :
  forall (hand : list Card) (n : Z),
    Script.generateHandFrom draws hand n = None <->
    (List.length hand + Script.newFaces (map face hand) draws < 5)%nat.
Proof.
  induction draws as [|d draws IH]; intros hand n;
    cbn [Script.generateHandFrom Script.newFaces].
  - destruct (Nat.ltb_spec (List.length hand) 5); split;
      try discriminate; try reflexivity; lia.
  - destruct (Nat.ltb_spec (List.length hand) 5) as [Hlt|Hge].
    + unfold Script.randomCard.
      set (c := mkCard _ (Script.drawn_suit d) (Script.drawn_value d) _).
      change (Script.drawn_suit d, Script.drawn_value d) with (face c).
      pose proof (findByFace_existsb hand c) as Hf.
      destruct (Script.findByFace hand c).
      * destruct (existsb _ _).
        -- apply IH.
        -- destruct Hf as [_ Hf]. discriminate (Hf eq_refl).
      * destruct (existsb _ _).
        -- destruct Hf as [Hf _]. discriminate (Hf eq_refl).
        -- rewrite IH, map_app, length_app; simpl. lia.
    + split; [discriminate | lia].
Qed.

Lemma generateHandFrom_app (draws more : list Script.Draw) :
  forall (hand : list Card) (n : Z) (h : list Card) (n' : Z) (rest : list Script.Draw),
    Script.generateHandFrom draws hand n = Some (h, n', rest) ->
    Script.generateHandFrom (draws ++ more) hand n = Some (h, n', rest ++ more).
Proof.
  induction draws as [|d draws IH]; intros hand n h n' rest;
    cbn [Script.generateHandFrom app].
  - destruct (Nat.ltb_spec (List.length hand) 5) as [Hlt|Hge]; [discriminate|].
    intros E; inversion E; subst; simpl.
    destruct more as [|m more]; cbn [Script.generateHandFrom];
      destruct (Nat.ltb_spec (List.length h) 5); try lia; reflexivity.
  - destruct (List.length hand <? 5)%nat.
    + destruct (Script.randomCard d n) as [c n1].
      destruct (Script.findByFace hand c); apply IH.
    + intros E; inversion E; subst; reflexivity.
Qed.

(** ** How many different faces a list of draws holds *)

Lemma newFaces_ge (draws : list Script.Draw) :
  forall (seen l : list (Suit * Z)),
    NoDup l -> incl l (seen ++ map draw_face draws) ->
    (List.length l <= List.length seen + Script.newFaces seen draws)%nat.
Proof.
  induction draws as [|d draws IH]; intros seen l Hnd Hincl;
    cbn [Script.newFaces map] in *.
  - rewrite app_nil_r in Hincl.
    pose proof (NoDup_incl_length Hnd Hincl). lia.
  - change (Script.drawn_suit d, Script.drawn_value d) with (draw_face d).
    destruct (existsb (face_eqb (draw_face d)) seen) eqn:Hex.
    + apply existsb_face in Hex.
      apply IH; auto.
      intros x Hx. apply Hincl in Hx.
      apply in_app_or in Hx; apply in_or_app.
      destruct Hx as [Hx|[<-|Hx]]; auto.
    + assert (Hl : (List.length l
                    <= List.length (seen ++ [draw_face d])
                       + Script.newFaces (seen ++ [draw_face d]) draws)%nat).
      { apply IH; auto. now rewrite <- app_assoc. }
      rewrite length_app in Hl; simpl in Hl. lia.
Qed.

Lemma newFaces_faces (draws : list Script.Draw) :
  forall seen : list (Suit * Z),
    NoDup seen ->
    exists l, NoDup l /\ incl l (seen ++ map draw_face draws) /\
              List.length l = (List.length seen + Script.newFaces seen draws)%nat.
Proof.
  induction draws as [|d draws IH]; intros seen Hnd;
    cbn [Script.newFaces map].
  - exists seen. split; [assumption|]. split; [|lia].
    rewrite app_nil_r; apply incl_refl.
  - change (Script.drawn_suit d, Script.drawn_value d) with (draw_face d).
    destruct (existsb (face_eqb (draw_face d)) seen) eqn:Hex.
    + destruct (IH seen Hnd) as (l & Hl & Hi & Hn).
      exists l; repeat split; auto.
      intros x Hx. apply Hi in Hx.
      apply in_app_or in Hx; apply in_or_app; simpl. tauto.
    + assert (Hnd' : NoDup (seen ++ [draw_face d])).
      { apply NoDup_app; auto.
        - repeat constructor; intros [].
        - intros x Hx [<-|[]].
          apply existsb_face in Hx. congruence. }
      destruct (IH _ Hnd') as (l & Hl & Hi & Hn).
      exists l; repeat split; auto.
      * now rewrite <- app_assoc in Hi.
      * rewrite length_app in Hn; simpl in Hn. lia.
Qed.

Lemma newFaces_after (junk block : list Script.Draw) :
  (Script.newFaces [] block <= Script.newFaces [] (junk ++ block))%nat.
Proof.
  destruct (newFaces_faces block [] (NoDup_nil _)) as (l & Hl & Hi & Hn).
  simpl in Hi, Hn. rewrite <- Hn.
  apply (newFaces_ge (junk ++ block) [] l Hl).
  simpl. intros x Hx. rewrite map_app. apply in_or_app; right. now apply Hi.
Qed.

(** X17.  [generateHand] returns exactly when the draws hold five different
    faces: it is still looping at the end of the draws if and only if fewer
    than five different faces were drawn. *)
Theorem generateHand_returns (draws : list Script.Draw) (n : Z) :
  Script.generateHand draws n = None <-> ~ holds_faces 5 draws.
Proof.
  unfold Script.generateHand. rewrite generateHandFrom_None. simpl.
  split.
  - intros Hlt (l & Hnd & Hincl & Hlen).
    pose proof (newFaces_ge draws [] l Hnd Hincl) as Hge. simpl in Hge. lia.
  - intros Hno.
    destruct (Nat.lt_ge_cases (Script.newFaces [] draws) 5) as [Hlt|Hge]; [exact Hlt|].
    exfalso; apply Hno.
    destruct (newFaces_faces draws [] (NoDup_nil _)) as (l & Hnd & Hincl & Hlen).
    simpl in Hincl, Hlen.
    exists (firstn 5 l); repeat split.
    + rewrite <- (firstn_skipn 5 l) in Hnd. now apply NoDup_app_remove_r in Hnd.
    + intros x Hx. apply Hincl.
      rewrite <- (firstn_skipn 5 l). apply in_or_app; now left.
    + rewrite length_firstn. lia.
Qed.

(** ** The trials *)

Lemma valid_hand_passes (h : list Card) :
  valid_hand h -> Script.trialPasses h = true.
Proof.
  intros Hv.
  destruct (decode_encoded h Hv) as (a & p & Ha & _ & _ & _ & Hd & Hp & Hs).
  unfold Script.trialPasses. rewrite Ha, Hd.
  rewrite Hs. subst p; simpl.
  rewrite Z.eqb_refl; simpl. now apply Suit_eqb_eq.
Qed.

(** X18.  Every hand [generateHand] can return passes the trial: the encoder
    and the decoder raise no error on it, and the card predicted has the
    value and the suit of the hidden card. *)
Theorem generated_hand_passes (draws : list Script.Draw) (n : Z)
        (h : list Card) (n' : Z) (rest : list Script.Draw) :
  Forall draw_in_range draws ->
  Script.generateHand draws n = Some (h, n', rest) ->
  Script.trialPasses h = true.
Proof.
  intros Hr E. apply valid_hand_passes.
  now destruct (generateHand_hand draws n h n' rest Hr E).
Qed.

Lemma generated_hand_passes_witness :
  Forall draw_in_range (demo_block ++ demo_block) /\
  Script.generateHand (demo_block ++ demo_block) 0
  = Some (demo_script_hand, 5, demo_block) /\
  Script.trialPasses demo_script_hand = true.
Proof.
  assert (Hr : Forall draw_in_range (demo_block ++ demo_block)).
  { apply Forall_app; split; exact demo_block_in_range. }
  split; [exact Hr|].
  split; [reflexivity|].
  apply (generated_hand_passes (demo_block ++ demo_block) 0 _ 5 demo_block Hr).
  reflexivity.
Defined.

Lemma trials_all_pass (k : nat) :
  forall (draws : list Script.Draw) (n : Z) (passed p : nat),
    Forall draw_in_range draws ->
    Script.trials k draws n passed = Some p -> p = (passed + k)%nat.
Proof.
  induction k as [|k IH]; intros draws n passed p Hr; cbn [Script.trials].
  - intros E; inversion E; lia.
  - destruct (Script.generateHand draws n) as [[[h n'] rest]|] eqn:Hg;
      [|discriminate].
    destruct (generateHand_hand draws n h n' rest Hr Hg) as (Hv & Hrest).
    rewrite (valid_hand_passes h Hv).
    intros E. apply IH in E; [lia | exact Hrest].
Qed.

(** X19.  The script never exits with code 1: whatever is drawn, with values
    1 to 13, if the hundred trials come to their end they have all passed and
    the exit code is 0. *)
Theorem script_never_fails (draws : list Script.Draw) (code : Z) :
  Forall draw_in_range draws -> Script.main draws = Some code -> code = 0.
Proof.
  intros Hr. unfold Script.main.
  destruct (Script.trials Script.TRIALS draws 0 0) as [p|] eqn:E; [|discriminate].
  apply trials_all_pass in E; [|exact Hr]. subst p; simpl.
  intros H; inversion H; reflexivity.
Qed.

Lemma demo_draws_in_range : Forall draw_in_range demo_draws.
Proof.
  unfold demo_draws. apply Forall_concat, Forall_forall.
  intros b Hb. apply repeat_spec in Hb. subst b. exact demo_block_in_range.
Qed.

Lemma script_never_fails_witness :
  Forall draw_in_range demo_draws /\ Script.main demo_draws = Some 0 /\ 0 = 0.
Proof.
  split; [exact demo_draws_in_range|].
  split; [vm_compute; reflexivity|].
  apply (script_never_fails demo_draws 0 demo_draws_in_range).
  vm_compute; reflexivity.
Defined.

Lemma trials_on_blocks (blocks : list (list Script.Draw)) :
  forall (junk tail : list Script.Draw) (n : Z) (passed : nat),
    Forall (fun b => (5 <= Script.newFaces [] b)%nat) blocks ->
    Forall draw_in_range (junk ++ List.concat blocks ++ tail) ->
    Script.trials (List.length blocks) (junk ++ List.concat blocks ++ tail) n passed
    = Some (passed + List.length blocks)%nat.
Proof.
  induction blocks as [|b blocks IH]; intros junk tail n passed Hb Hr.
  - simpl; f_equal; lia.
  - inversion Hb as [|? ? Hb1 Hb']; subst.
    assert (Heq : junk ++ List.concat (b :: blocks) ++ tail
                  = (junk ++ b) ++ (List.concat blocks ++ tail)).
    { simpl. now rewrite <- !app_assoc. }
    rewrite Heq in Hr |- *.
    cbn [Script.trials List.length].
    destruct (Script.generateHand (junk ++ b) n) as [[[h n'] rest]|] eqn:Hg.
    + assert (Hr1 : Forall draw_in_range (junk ++ b)).
      { apply Forall_app in Hr. tauto. }
      destruct (generateHand_hand (junk ++ b) n h n' rest Hr1 Hg) as (Hv & Hrest).
      unfold Script.generateHand in *.
      rewrite (generateHandFrom_app _ (List.concat blocks ++ tail) _ _ _ _ _ Hg).
      rewrite (valid_hand_passes h Hv).
      assert (Hr2 : Forall draw_in_range (rest ++ List.concat blocks ++ tail)).
      { apply Forall_app in Hr. apply Forall_app; tauto. }
      rewrite (IH rest tail n' (S passed) Hb' Hr2).
      f_equal; lia.
    + exfalso. unfold Script.generateHand in Hg.
      apply generateHandFrom_None in Hg. simpl in Hg.
      pose proof (newFaces_after junk b). lia.
Qed.

(** X20.  The script exits with code 0 as soon as the draws are enough: if
    they split into a hundred blocks, each holding five different faces,
    followed by anything, the hundred trials end and all pass. *)
Theorem script_exits_zero (blocks : list (list Script.Draw)) (tail : list Script.Draw) :
  List.length blocks = Script.TRIALS ->
  Forall (holds_faces 5) blocks ->
  Forall draw_in_range (List.concat blocks ++ tail) ->
  Script.main (List.concat blocks ++ tail) = Some 0.
Proof.
  intros Hlen Hf Hr. unfold Script.main.
  assert (Hb : Forall (fun b => (5 <= Script.newFaces [] b)%nat) blocks).
  { apply Forall_impl with (2 := Hf).
    intros b (l & Hnd & Hincl & Hl).
    pose proof (newFaces_ge b [] l Hnd Hincl) as Hge. simpl in Hge. lia. }
  pose proof (trials_on_blocks blocks [] tail 0 0 Hb Hr) as E.
  cbn [app] in E. rewrite Hlen in E. rewrite E.
  now rewrite Nat.add_0_l, Nat.eqb_refl.
Qed.

Lemma script_exits_zero_witness :
  List.length (repeat demo_block Script.TRIALS) = Script.TRIALS /\
  Forall (holds_faces 5) (repeat demo_block Script.TRIALS) /\
  Forall draw_in_range (List.concat (repeat demo_block Script.TRIALS) ++ []) /\
  Script.main (List.concat (repeat demo_block Script.TRIALS) ++ []) = Some 0.
Proof.
  assert (Hb : Forall (holds_faces 5) (repeat demo_block Script.TRIALS)).
  { apply Forall_forall. intros b Hb. apply repeat_spec in Hb. subst b.
    exists (map draw_face demo_block); repeat split.
    - apply (distinctb_NoDup face_eqb face_eqb_eq); reflexivity.
    - apply incl_refl. }
  assert (Hr : Forall draw_in_range (List.concat (repeat demo_block Script.TRIALS) ++ [])).
  { rewrite app_nil_r. exact demo_draws_in_range. }
  split; [apply repeat_length|].
  split; [exact Hb|].
  split; [exact Hr|].
  apply (script_exits_zero (repeat demo_block Script.TRIALS) []);
    [apply repeat_length | exact Hb | exact Hr].
Defined.

(** * Beyond the claims: more on the encoder, the decoder and the stage *)

(** X21.  [suitCounts] files every card of the hand under its own suit and
    under no other, in the order of the hand: the list of a suit is the hand
    filtered on that suit, in both copies, and the four lists together have
    as many cards as the hand. *)
Theorem suitCounts_partition (h : list Card) :
  (forall s,
     count_of (VerifyLogic.suitCounts h) s
     = filter (fun c => Suit_eqb (suit c) s) h /\
     count_of (App.suitCounts h) s = count_of (VerifyLogic.suitCounts h) s) /\
  (List.length (count_of (App.suitCounts h) spades)
   + List.length (count_of (App.suitCounts h) hearts)
   + List.length (count_of (App.suitCounts h) clubs)
   + List.length (count_of (App.suitCounts h) diamonds) = List.length h)%nat.
Proof.
  split.
  - intros s; split; [apply suitCounts_filter | reflexivity].
  - change App.suitCounts with VerifyLogic.suitCounts.
    rewrite !suitCounts_filter. symmetry; apply suit_lengths.
Qed.

(** Three slots, holding cards or not: the tests of the decoder either read
    [.id] from [undefined] or succeed on one of the six orders. *)
Lemma decodeOffset_three_slots (x y z : option Card) (o : Z) :
  VerifyLogic.decodeOffset [x; y; z] = Ok o -> 1 <= o <= 6.
Proof.
  unfold VerifyLogic.decodeOffset, JS.sortU.
  destruct x as [x|], y as [y|], z as [z|]; simpl;
    by_rank; simpl; by_rank; simpl; by_rank; simpl;
    run_chain; intros E; inversion E; lia.
Qed.

(** X22.  The decoder never answers the indicator's own value on what the
    encoder returns: for any hand, valid or not, if the decoder returns a
    card for the indicator and the code cards of the arrangement, its value
    is 1 to 6 steps clockwise from the indicator's.  So when the two cards of
    the pair have the same value (a duplicated card), the hidden card's value
    is never decoded. *)
Theorem decode_of_arrangement_moves (h : list Card) (a : Arrangement) (p : Card) :
  VerifyLogic.getFitchCheneyArrangement h = Ok a ->
  1 <= value (indicator a) <= 13 ->
  VerifyLogic.decode (indicator a) (codeCards a) = Ok p ->
  1 <= dist (value (indicator a)) (value p) <= 6 /\
  value p <> value (indicator a) /\
  (value (hidden a) = value (indicator a) -> value p <> value (hidden a)).
Proof.
  intros Ha Hv Hd.
  pose proof (codeCards_length h a Ha) as Hlen.
  destruct (codeCards a) as [|x [|y [|z [|]]]]; try discriminate.
  unfold VerifyLogic.decode in Hd.
  destruct (VerifyLogic.decodeOffset [x; y; z]) as [o|] eqn:Ho; [|discriminate].
  apply decodeOffset_three_slots in Ho.
  simpl in Hd; inversion Hd; subst p; simpl.
  assert (E : dist (value (indicator a)) (Z.rem (value (indicator a) + o - 1) 13 + 1) = o).
  { unfold dist. Z.to_euclidean_division_equations; lia. }
  rewrite E.
  assert (N : Z.rem (value (indicator a) + o - 1) 13 + 1 <> value (indicator a)).
  { Z.to_euclidean_division_equations; lia. }
  split; [lia|]. split; [exact N|]. intros ->; exact N.
Qed.

Lemma decode_of_arrangement_moves_witness :
  VerifyLogic.getFitchCheneyArrangement [C3; C3; H2; SK; D7]
  = Ok (mkArrangement C3 C3 [Some H2; Some D7; Some SK]) /\
  1 <= value (indicator (mkArrangement C3 C3 [Some H2; Some D7; Some SK])) <= 13 /\
  VerifyLogic.decode (indicator (mkArrangement C3 C3 [Some H2; Some D7; Some SK]))
                     (codeCards (mkArrangement C3 C3 [Some H2; Some D7; Some SK]))
  = Ok (mkCard "predicted" clubs 4 "3") /\
  1 <= dist (value (indicator (mkArrangement C3 C3 [Some H2; Some D7; Some SK])))
            (value (mkCard "predicted" clubs 4 "3")) <= 6 /\
  value (mkCard "predicted" clubs 4 "3")
  <> value (indicator (mkArrangement C3 C3 [Some H2; Some D7; Some SK])) /\
  (value (hidden (mkArrangement C3 C3 [Some H2; Some D7; Some SK]))
   = value (indicator (mkArrangement C3 C3 [Some H2; Some D7; Some SK])) ->
   value (mkCard "predicted" clubs 4 "3")
   <> value (hidden (mkArrangement C3 C3 [Some H2; Some D7; Some SK]))).
Proof.
  split; [reflexivity|].
  split; [simpl; lia|].
  split; [reflexivity|].
  apply (decode_of_arrangement_moves [C3; C3; H2; SK; D7]
           (mkArrangement C3 C3 [Some H2; Some D7; Some SK])
           (mkCard "predicted" clubs 4 "3"));
    [reflexivity | simpl; lia | reflexivity].
Defined.

(** X23.  Performing the trick twice is performing it once: on the state
    [performMagic] returns, [performMagic] returns that same state. *)
Theorem performMagic_idempotent (s s' : Ui.State) :
  Ui.performMagic s = Ok s' -> Ui.performMagic s' = Ok s'.
Proof.
  unfold Ui.performMagic.
  destruct (Nat.eqb_spec (List.length (Ui.hand s)) 5) as [E|N]; simpl.
  - destruct (App.getFitchCheneyArrangement (Ui.hand s)) as [a|e] eqn:Ha;
      simpl; [|discriminate].
    intros H; inversion H; subst s'; simpl.
    rewrite E, Ha; reflexivity.
  - intros H; inversion H; subst s'.
    destruct (Nat.eqb_spec (List.length (Ui.hand s)) 5); [contradiction | reflexivity].
Qed.

Lemma performMagic_idempotent_witness :
  Ui.performMagic (Ui.mkState App.deck exemplar Ui.selection diamonds None false)
  = Ok demo_state /\
  Ui.performMagic demo_state = Ok demo_state.
Proof.
  split; [reflexivity|].
  apply (performMagic_idempotent
           (Ui.mkState App.deck exemplar Ui.selection diamonds None false)).
  reflexivity.
Defined.


